(** * Terraform provider for New Relic: synthetics private location resource,
    request authorizers and the data partition rule acceptance checks.

    Shallow embedding of
      - newrelic/resource_newrelic_synthetics_private_location.go
      - the request authorizers of the API client (package http)
      - newrelic/resource_newrelic_data_partition_test.go
    The Terraform plugin SDK (ResourceData, diag) and the API client are
    outside the repository; the parts of them the handlers call are modelled
    in the modules [diag], [schema] and in the record [NewRelic] below. *)

From Stdlib Require Import ZArith.
From stdpp Require Import gmap strings list fin_maps.

Local Open Scope string_scope.
Local Open Scope Z_scope.

(** ** Go errors *)

(** A Go [error] value is modelled by its dynamic type, as far as the
    handlers distinguish it (the NotFound error of the client library, or
    anything else), and by the text its [Error()] method gives.  A nil error
    is [None : option error]. *)
Inductive error : Type :=
| NotFound (msg : string)
| errorString (msg : string).

Definition Error (e : error) : string :=
  match e with
  | NotFound msg => msg
  | errorString msg => msg
  end.

(** The type assertion of [err] to the client library's NotFound error. *)
Definition isNotFound (e : error) : bool :=
  match e with
  | NotFound _ => true
  | errorString _ => false
  end.

(** ** Package diag of the Terraform SDK *)
Module diag.

Inductive Severity : Type := Error_ | Warning.

Record Diagnostic : Type := mkDiagnostic {
    Severity_ : Severity;
    Summary : string;
    Detail : string
  }.

(** A nil [Diagnostics] is the empty list. *)
Definition Diagnostics : Type := list Diagnostic.

(** [diag.FromErr]: nil for a nil error, otherwise one Error diagnostic
    whose summary is the error text. *)
Definition FromErr (err : option error) : Diagnostics :=
  match err with
  | None => []
  | Some e => [ mkDiagnostic Error_ (Error e) "" ]
  end.

End diag.

(** ** Package schema of the Terraform SDK *)
Module schema.

Inductive ValueType : Type := TypeBool | TypeInt | TypeString.

Global Instance ValueType_eq_dec : EqDecision ValueType.
Proof. solve_decision. Defined.

Record Schema : Type := mkSchema {
    Type_ : ValueType;
    Optional : bool;
    Required : bool;
    Computed : bool;
    ForceNew : bool;
    Description : string
  }.

(** The Go values the handlers store and read: [int], [string] (also the
    named string types such as [EntityGUID], which the field writer decodes
    by kind) and [bool]. *)
Inductive Value : Type :=
  | VInt (n : Z)
  | VString (s : string)
  | VBool (b : bool).

Definition typeOf (v : Value) : ValueType :=
  match v with
  | VInt _ => TypeInt
  | VString _ => TypeString
  | VBool _ => TypeBool
  end.

Definition zeroValue (t : ValueType) : Value :=
  match t with
  | TypeBool => VBool false
  | TypeInt => VInt 0
  | TypeString => VString ""
  end.

(** [*schema.ResourceData]: the resource ID and the attribute values. *)
Record ResourceData : Type := mkResourceData {
    Id : string;
    attrs : gmap string Value
  }.

Definition SetId (d : ResourceData) (v : string) : ResourceData :=
  mkResourceData v (attrs d).

Section WithSchema.
(** The schema map of the resource the data belongs to. *)
Variable sch : gmap string Schema.

(** [d.Get(key)]: nil ([None]) for a key the schema does not declare,
    otherwise the stored value, or the zero value of the declared type
    when nothing of that type is stored. *)
Definition Get (d : ResourceData) (key : string) : option Value :=
  match sch !! key with
  | None => None
  | Some s =>
      match attrs d !! key with
      | Some v => if decide (typeOf v = Type_ s) then Some v
                  else Some (zeroValue (Type_ s))
      | None => Some (zeroValue (Type_ s))
      end
  end.

(** [d.Set(key, value)]: an error, and no change, for a key outside the
    schema or a value of another type than the declared one. *)
Definition Set_ (d : ResourceData) (key : string) (value : Value)
  : ResourceData * option error :=
  match sch !! key with
  | None => (d, Some (errorString "Invalid address to set"))
  | Some s =>
      if decide (typeOf value = Type_ s)
      then (mkResourceData (Id d) (<[key := value]> (attrs d)), None)
      else (d, Some (errorString "type mismatch"))
  end.
End WithSchema.

(** Type assertions [v.(string)] and [v.(bool)]; [None] is the run-time
    panic of a failed assertion. *)
Definition asString (v : option Value) : option string :=
  match v with
  | Some (VString s) => Some s
  | _ => None
  end.

Definition asBool (v : option Value) : option bool :=
  match v with
  | Some (VBool b) => Some b
  | _ => None
  end.

(** [schema.ImportStatePassthroughContext]: the data it was given, as the
    only result, and no error. *)
Definition ImportStatePassthroughContext {M : Type}
    (d : ResourceData) (meta : M) : list ResourceData * option error :=
  ([d], None).

End schema.


(** ** The API client, as far as the handlers use it *)

(** Package synthetics of the client library: the result types of the
    private location mutations (the fields the handlers read, and the
    identifying ones). *)
Module synthetics.

Definition EntityGUID : Type := string.

Record SyntheticsPrivateLocationMutationError : Type :=
  mkMutationError {
    Description : string;
    Type_ : string
  }.

Record SyntheticsPrivateLocationMutationResult : Type :=
  mkMutationResult {
    AccountID : Z;
    DomainId : string;
    Errors : list SyntheticsPrivateLocationMutationError;
    GUID : EntityGUID;
    Key : string;
    LocationId : string;
    Name : string;
    VerifiedScriptExecution : bool
  }.

(** The delete result has the single field [Errors]. *)
Record SyntheticsPrivateLocationDeleteResult : Type :=
  mkDeleteResult {
    Errors_ : list SyntheticsPrivateLocationMutationError
  }.

End synthetics.

(** Package entities of the client library. *)
Module entities.

Record GenericEntityOutline : Type := mkGenericEntityOutline {
    AccountID : Z;
    Domain : string;
    EntityType : string;
    GUID : string;
    Name : string;
    Type_ : string
  }.

(** The dynamic type of an [EntityInterface] value: a pointer to a
    [GenericEntityOutline], or any other entity outline (or nil). *)
Inductive EntityInterface : Type :=
  | PtrGenericEntityOutline (e : GenericEntityOutline)
  | OtherEntity.

End entities.

(** The four client calls of the handlers.  Each returns a Go pair
    [(result pointer, error)]; a nil pointer and a nil error are [None].
    A handler makes exactly one call, so the remote service is a function
    from the request to what it answers. *)
Record NewRelic : Type := mkNewRelic {
  SyntheticsCreatePrivateLocationWithContext :
    Z -> string -> string -> bool ->
    option synthetics.SyntheticsPrivateLocationMutationResult * option error;
  GetEntity :
    string -> option entities.EntityInterface * option error;
  SyntheticsUpdatePrivateLocation :
    string -> synthetics.EntityGUID -> bool ->
    option synthetics.SyntheticsPrivateLocationMutationResult * option error;
  SyntheticsDeletePrivateLocationWithContext :
    synthetics.EntityGUID ->
    option synthetics.SyntheticsPrivateLocationDeleteResult * option error
}.

(** The provider's configuration, handed to every handler as [meta]. *)
Record ProviderConfig : Type := mkProviderConfig {
  NewClient : NewRelic;
  AccountID : Z
}.

(** What a handler call ends in: the diagnostics it returns, or a run-time
    panic (a nil pointer dereference or a failed type assertion). *)
Inductive result : Type :=
| Return (diags : diag.Diagnostics)
| Panic.

Definition HandlerFunc : Type :=
  schema.ResourceData -> ProviderConfig -> schema.ResourceData * result.

Record ResourceImporter : Type := mkResourceImporter {
  StateContext :
    schema.ResourceData -> ProviderConfig ->
    list schema.ResourceData * option error
}.

(** [schema.Resource]: every callback is a pointer, nil when the resource
    does not register it. *)
Record Resource : Type := mkResource {
  CreateContext : option HandlerFunc;
  ReadContext : option HandlerFunc;
  UpdateContext : option HandlerFunc;
  DeleteContext : option HandlerFunc;
  Importer : option ResourceImporter;
  Schema : gmap string schema.Schema
}.

(** ** resource_newrelic_synthetics_private_location.go *)

(** The [Schema] literal of [resourceNewRelicSyntheticsPrivateLocation]. *)
Definition syntheticsPrivateLocationSchema : gmap string schema.Schema :=
  list_to_map [
    ("account_id",
      schema.mkSchema schema.TypeInt true false true false
        "The ID of the account in New Relic.");
    ("description",
      schema.mkSchema schema.TypeString false true false false
        "The private location description.");
    ("name",
      schema.mkSchema schema.TypeString false true false true
        "The name of the private location.");
    ("verified_script_execution",
      schema.mkSchema schema.TypeBool false true false false
        "The private location requires a password to edit if value is true.");
    ("domain_id",
      schema.mkSchema schema.TypeString true false false false
        "The private location globally unique identifier.");
    ("guid",
      schema.mkSchema schema.TypeString true false false false
        "The guid of the entity to tag.");
    ("key",
      schema.mkSchema schema.TypeString true false false false
        "The private locations key.");
    ("location_id",
      schema.mkSchema schema.TypeString true false false false
        "An alternate identifier based on name.")
  ].

(** The handlers read and write data of this schema. *)
Abbreviation dGet := (schema.Get syntheticsPrivateLocationSchema).
Abbreviation dSet := (schema.Set_ syntheticsPrivateLocationSchema).

(** The loop [for _, err := range errs { diags = append(diags, ...) }]. *)
Fixpoint appendErrors (diags : diag.Diagnostics)
    (errs : list synthetics.SyntheticsPrivateLocationMutationError)
  : diag.Diagnostics :=
  match errs with
  | [] => diags
  | err :: rest =>
      appendErrors
        (diags ++ [ diag.mkDiagnostic diag.Error_ (synthetics.Description err) "" ])%list
        rest
  end.

(** [setCommonSyntheticsPrivateLocationAttributes]: a type switch with the
    single case of a generic entity outline. *)
Definition setCommonSyntheticsPrivateLocationAttributes
    (v : entities.EntityInterface) (d : schema.ResourceData)
  : schema.ResourceData :=
  match v with
  | entities.PtrGenericEntityOutline e =>
      let d := fst (dSet d "guid" (schema.VString (entities.GUID e))) in
      let d := fst (dSet d "name" (schema.VString (entities.Name e))) in
      d
  | entities.OtherEntity => d
  end.

Section Handlers.

(** [selectAccountID] is a helper of the provider that is not part of the
    files at hand; the create handler passes its result on to the client. *)
Variable selectAccountID : ProviderConfig -> schema.ResourceData -> Z.

Definition resourceNewRelicSyntheticsPrivateLocationCreate : HandlerFunc :=
  fun d meta =>
  let providerConfig := meta in
  let client := NewClient providerConfig in
  let accountID := selectAccountID providerConfig d in
  let diags : diag.Diagnostics := [] in
  match schema.asString (dGet d "description"),
        schema.asString (dGet d "name"),
        schema.asBool (dGet d "verified_script_execution") with
  | Some description, Some name, Some verifiedScriptExecution =>
      match SyntheticsCreatePrivateLocationWithContext client
              accountID description name verifiedScriptExecution with
      | (_, Some err) => (d, Return (diag.FromErr (Some err)))
      | (None, None) => (d, Panic)
      | (Some res, None) =>
          let diags :=
            if (0 <? length (synthetics.Errors res))%nat
            then appendErrors diags (synthetics.Errors res)
            else diags in
          if (0 <? length diags)%nat then (d, Return diags)
          else
            let d := schema.SetId d (synthetics.GUID res) in
            let d := fst (dSet d "domain_id" (schema.VString (synthetics.DomainId res))) in
            let d := fst (dSet d "key" (schema.VString (synthetics.Key res))) in
            let d := fst (dSet d "location_id" (schema.VString (synthetics.LocationId res))) in
            let d := fst (dSet d "guid" (schema.VString (synthetics.GUID res))) in
            (d, Return [])
      end
  | _, _, _ => (d, Panic)
  end.

Definition resourceNewRelicSyntheticsPrivateLocationRead : HandlerFunc :=
  fun d meta =>
  let client := NewClient meta in
  let guid := schema.Id d in
  match GetEntity client guid with
  | (_, Some err) =>
      if isNotFound err then (schema.SetId d "", Return [])
      else (d, Return (diag.FromErr (Some err)))
  | (None, None) => (d, Panic)
  | (Some resp, None) =>
      (setCommonSyntheticsPrivateLocationAttributes resp d, Return [])
  end.

Definition resourceNewRelicSyntheticsPrivateLocationUpdate : HandlerFunc :=
  fun d meta =>
  let providerConfig := meta in
  let client := NewClient providerConfig in
  let diags : diag.Diagnostics := [] in
  match schema.asString (dGet d "description"),
        schema.asBool (dGet d "verified_script_execution") with
  | Some description, Some verifiedScriptExecution =>
      let guid := schema.Id d in
      match SyntheticsUpdatePrivateLocation client
              description guid verifiedScriptExecution with
      | (_, Some err) => (d, Return (diag.FromErr (Some err)))
      | (None, None) => (d, Panic)
      | (Some res, None) =>
          let diags :=
            if (0 <? length (synthetics.Errors res))%nat
            then appendErrors diags (synthetics.Errors res)
            else diags in
          if (0 <? length diags)%nat then (d, Return diags)
          else (d, Return [])
      end
  | _, _ => (d, Panic)
  end.

Definition resourceNewRelicSyntheticsPrivateLocationDelete : HandlerFunc :=
  fun d meta =>
  let providerConfig := meta in
  let client := NewClient providerConfig in
  let diags : diag.Diagnostics := [] in
  let guid := schema.Id d in
  match SyntheticsDeletePrivateLocationWithContext client guid with
  | (_, Some err) => (d, Return (diag.FromErr (Some err)))
  | (res, None) =>
      let diags :=
        match res with
        | Some res => appendErrors diags (synthetics.Errors_ res)
        | None => diags
        end in
      if (0 <? length diags)%nat then (d, Return diags)
      else (schema.SetId d "", Return [])
  end.

Definition resourceNewRelicSyntheticsPrivateLocation : Resource :=
  {| CreateContext := Some resourceNewRelicSyntheticsPrivateLocationCreate;
     ReadContext := Some resourceNewRelicSyntheticsPrivateLocationRead;
     UpdateContext := Some resourceNewRelicSyntheticsPrivateLocationUpdate;
     DeleteContext := Some resourceNewRelicSyntheticsPrivateLocationDelete;
     Importer :=
       Some (mkResourceImporter schema.ImportStatePassthroughContext);
     Schema := syntheticsPrivateLocationSchema |}.

End Handlers.

(** ** Request authorizers (package http of the API client) *)
Module http.

(** [config.Config]: the three keys the authorizers read. *)
Record Config : Type := mkConfig {
    PersonalAPIKey : string;
    AdminAPIKey : string;
    InsightsInsertKey : string
  }.

(** A request under construction.  [Header] is Go's [http.Header], a map
    from a header name to its values. *)
Record Request : Type := mkRequest {
    method : string;
    url : string;
    Header : gmap string (list string)
  }.

(** [r.SetHeader(key, value)] replaces whatever the header held by the
    single value.  The four names the authorizers pass are in canonical
    form already, so the key is entered as it is written. *)
Definition SetHeader (r : Request) (key value : string) : Request :=
  mkRequest (method r) (url r) (<[key := [value]]> (Header r)).

(** The interface [RequestAuthorizer]; authorizing updates the request. *)
Class RequestAuthorizer (A : Type) : Type :=
  AuthorizeRequest : A -> Request -> Config -> Request.

(** The four implementations are empty structs. *)
Inductive NerdGraphAuthorizer : Type := mkNerdGraphAuthorizer.
Inductive PersonalAPIKeyCapableV2Authorizer : Type :=
  mkPersonalAPIKeyCapableV2Authorizer.
Inductive ClassicV2Authorizer : Type := mkClassicV2Authorizer.
Inductive InsightsInsertKeyAuthorizer : Type := mkInsightsInsertKeyAuthorizer.

Global Instance NerdGraphAuthorizer_AuthorizeRequest
  : RequestAuthorizer NerdGraphAuthorizer :=
  fun a r c => SetHeader r "Api-Key" (PersonalAPIKey c).

Global Instance PersonalAPIKeyCapableV2Authorizer_AuthorizeRequest
  : RequestAuthorizer PersonalAPIKeyCapableV2Authorizer :=
  fun a r c =>
    if negb (String.eqb (PersonalAPIKey c) "") then
      let r := SetHeader r "Api-Key" (PersonalAPIKey c) in
      SetHeader r "Auth-Type" "User-Api-Key"
    else
      SetHeader r "X-Api-Key" (AdminAPIKey c).

Global Instance ClassicV2Authorizer_AuthorizeRequest
  : RequestAuthorizer ClassicV2Authorizer :=
  fun a r c => SetHeader r "X-Api-Key" (AdminAPIKey c).

Global Instance InsightsInsertKeyAuthorizer_AuthorizeRequest
  : RequestAuthorizer InsightsInsertKeyAuthorizer :=
  fun a r c => SetHeader r "X-Insert-Key" (InsightsInsertKey c).

End http.

(** ** resource_newrelic_data_partition_test.go *)

(** Package terraform of the SDK: the state a check function inspects. *)
Module terraform.

Record InstanceState : Type := mkInstanceState {
    ID : string
  }.

Record ResourceState : Type := mkResourceState {
    Type_ : string;
    Primary : InstanceState
  }.

(** [s.RootModule().Resources], a Go map from the resource address to its
    state, listed in the order a [range] loop happens to visit it. *)
Definition State : Type := list (string * ResourceState).

End terraform.

(** One [newrelic_data_partition_rule] block of a test configuration. *)
Record DataPartitionRuleConfig : Type := mkDataPartitionRuleConfig {
  account_id : Z;
  description : string;
  enabled : bool;
  attribute_name : string;
  matching_expression : string;
  matching_method : string;
  retention_policy : string;
  target_data_partition : string
}.

Global Instance DataPartitionRuleConfig_eq_dec : EqDecision DataPartitionRuleConfig.
Proof. solve_decision. Defined.

(** The pattern [TestAccNewRelicDataPartitionRule_Validation] expects the
    error of the apply to match. *)
Definition expectedMsg : string := "DUPLICATE_DATA_PARTITION_RULE_NAME".

Section DataPartitionTest.

(** Declared in other files of the package: the account and application
    name of the test environment, the provider under test, the rule type
    of the client library and the lookup of a rule by its ID. *)
Variable testAccountID : Z.
Variable testAccExpectedApplicationName : string.
Variable testAccProviderMeta : ProviderConfig.
Variable LogConfigurationsDataPartitionRule : Type.
Variable getDataPartitionByID :
  NewRelic -> Z -> string ->
  option LogConfigurationsDataPartitionRule * option error.

(** [testAccCheckNewRelicDataPartitionRuleDestroy] *)
Fixpoint testAccCheckNewRelicDataPartitionRuleDestroy
    (s : terraform.State) : option error :=
  let client := NewClient testAccProviderMeta in
  match s with
  | [] => None
  | (_, rs) :: rest =>
      if negb (String.eqb (terraform.Type_ rs) "newrelic_data_partition_rule")
      then testAccCheckNewRelicDataPartitionRuleDestroy rest
      else
        match snd (getDataPartitionByID client testAccountID
                     (terraform.ID (terraform.Primary rs))) with
        | Some err =>
            Some (errorString
                    ("data partition rule still exists: " ++ Error err))
        | None => testAccCheckNewRelicDataPartitionRuleDestroy rest
        end
  end.

(** [testAccCheckNewRelicDataPartitionRuleExists].  The index expression
    [Resources[n]] is the lookup in the map the listed state stands for. *)
Definition testAccCheckNewRelicDataPartitionRuleExists
    (n : string) (s : terraform.State) : option error :=
  match (list_to_map s : gmap string terraform.ResourceState) !! n with
  | None => Some (errorString ("not found: " ++ n))
  | Some rs =>
      if String.eqb (terraform.ID (terraform.Primary rs)) ""
      then Some (errorString "no ID is set")
      else
        let client := NewClient testAccProviderMeta in
        match snd (getDataPartitionByID client testAccountID
                     (terraform.ID (terraform.Primary rs))) with
        | Some err => Some err
        | None => None
        end
  end.

(** The configurations the tests format, as the resource blocks they
    declare: the block's name and its attributes. *)
Definition testAccNewRelicDataPartitionRuleConfig (name : string)
  : list (string * DataPartitionRuleConfig) :=
  [ ("foo",
     mkDataPartitionRuleConfig testAccountID testAccExpectedApplicationName
       true "hostname" "localhost" "EQUALS" "SECONDARY"
       ("Log_Test_" ++ name)) ].

Definition testAccNewRelicDataPartitionRuleUpdate (name : string)
  : list (string * DataPartitionRuleConfig) :=
  [ ("foo",
     mkDataPartitionRuleConfig testAccountID
       (testAccExpectedApplicationName ++ "_update")
       true "hostname_update" "localhost" "EQUALS" "SECONDARY"
       ("Log_Test_" ++ name)) ].

Definition testAccNewRelicDataPartitionRule_ValidateName (name : string)
  : list (string * DataPartitionRuleConfig) :=
  [ ("foo",
     mkDataPartitionRuleConfig testAccountID testAccExpectedApplicationName
       true "hostname" "localhost" "EQUALS" "SECONDARY"
       ("Log_Test_" ++ name));
    ("bar",
     mkDataPartitionRuleConfig testAccountID testAccExpectedApplicationName
       true "hostname" "localhost" "EQUALS" "SECONDARY"
       ("Log_Test_" ++ name)) ].

End DataPartitionTest.

(** ** The data partition rule resource and its remote service *)

(** The Terraform state of one data partition rule: the resource ID and the
    flat attribute record. *)
Record DataPartitionRuleData : Type := mkDataPartitionRuleData {
  rule_ID : string;
  rule_attributes : DataPartitionRuleConfig
}.

(** The error code of the vendor for a rule whose target name is in use. *)
Definition DUPLICATE_DATA_PARTITION_RULE_NAME : string :=
  "DUPLICATE_DATA_PARTITION_RULE_NAME".

(** Some rule of the account already has this target data partition name. *)
Definition nameInUse (remote : gmap string DataPartitionRuleConfig)
    (name : string) : Prop :=
  map_Exists (fun _ r => target_data_partition r = name) remote.

Global Instance nameInUse_dec remote name : Decision (nameInUse remote name).
Proof. unfold nameInUse. apply _. Defined.

Section DataPartitionRule.

(** The ID the service gives to the next rule it stores. *)
Variable newID : gmap string DataPartitionRuleConfig -> string.

(** Modelled from the spec: the remote service behind the data partition
    rule resource, which is not part of the files at hand.  The service
    holds the rules of the account by ID; creating a rule under a target
    name that is in use is rejected with the vendor's duplicate-name error
    code, otherwise the rule is stored as sent, under a new ID. *)
Definition createDataPartitionRule
    (remote : gmap string DataPartitionRuleConfig)
    (rule : DataPartitionRuleConfig)
  : gmap string DataPartitionRuleConfig * (string + error) :=
  if decide (nameInUse remote (target_data_partition rule))
  then (remote, inr (errorString DUPLICATE_DATA_PARTITION_RULE_NAME))
  else (<[newID remote := rule]> remote, inl (newID remote)).

(** Modelled from the spec: the read handler of the data partition rule
    resource (resource_newrelic_data_partition.go is not part of the files
    at hand).  The attributes are mirrored 1:1 from the rule the service
    returns for the resource ID; an error of the call is wrapped into
    diagnostics. *)
Definition resourceNewRelicDataPartitionRead
    (remote : gmap string DataPartitionRuleConfig)
    (d : DataPartitionRuleData)
  : DataPartitionRuleData * diag.Diagnostics :=
  match remote !! rule_ID d with
  | Some rule => (mkDataPartitionRuleData (rule_ID d) rule, [])
  | None =>
      (d, diag.FromErr (Some (errorString "data partition rule not found")))
  end.

(** Modelled from the spec: the create handler of the data partition rule
    resource.  The attributes are sent 1:1 as the request; an error of the
    call is wrapped into diagnostics and leaves the state as it was; on
    success the ID is set and the state is read back. *)
Definition resourceNewRelicDataPartitionCreate
    (remote : gmap string DataPartitionRuleConfig)
    (d : DataPartitionRuleData)
  : gmap string DataPartitionRuleConfig
    * DataPartitionRuleData * diag.Diagnostics :=
  match createDataPartitionRule remote (rule_attributes d) with
  | (remote', inr err) => (remote', d, diag.FromErr (Some err))
  | (remote', inl id) =>
      let '(d', diags) :=
        resourceNewRelicDataPartitionRead remote'
          (mkDataPartitionRuleData id (rule_attributes d)) in
      (remote', d', diags)
  end.

(** Modelled from the spec: importing a data partition rule by its ID.
    The SDK starts from data that holds the ID alone, runs the resource's
    pass-through importer and refreshes each result with the read
    handler. *)
Definition importDataPartitionRule
    (remote : gmap string DataPartitionRuleConfig) (id : string)
  : list (DataPartitionRuleData * diag.Diagnostics) :=
  let d :=
    mkDataPartitionRuleData id
      (mkDataPartitionRuleConfig 0 "" false "" "" "" "" "") in
  map (resourceNewRelicDataPartitionRead remote) [d].

End DataPartitionRule.

(** Importing a resource by ID in the SDK: the importer of the resource runs
    on data whose ID is the given one. *)
Definition importState (r : Resource) (d : schema.ResourceData)
    (id : string) (meta : ProviderConfig)
  : option (list schema.ResourceData * option error) :=
  match Importer r with
  | Some imp => Some (StateContext imp (schema.SetId d id) meta)
  | None => None
  end.

(** ** What the handlers read *)

(** The string and the boolean a handler obtains from [d.Get(key)] followed
    by a type assertion. *)
Definition stringAttr (d : schema.ResourceData) (key : string) : string :=
  default "" (schema.asString (dGet d key)).

Definition boolAttr (d : schema.ResourceData) (key : string) : bool :=
  default false (schema.asBool (dGet d key)).

(** The diagnostic the handlers build from one error of a response. *)
Definition errorDiagnostic
    (err : synthetics.SyntheticsPrivateLocationMutationError)
  : diag.Diagnostic :=
  diag.mkDiagnostic diag.Error_ (synthetics.Description err) "".

(** ** Sample provider, client answers and resource data *)

(** A stand-in for [selectAccountID]: the account of the provider. *)
Definition providerAccountID (meta : ProviderConfig)
    (d : schema.ResourceData) : Z :=
  AccountID meta.

(** A client whose every call fails with [err]. *)
Definition failingClient (err : error) : NewRelic :=
  {| SyntheticsCreatePrivateLocationWithContext := fun _ _ _ _ => (None, Some err);
     GetEntity := fun _ => (None, Some err);
     SyntheticsUpdatePrivateLocation := fun _ _ _ => (None, Some err);
     SyntheticsDeletePrivateLocationWithContext := fun _ => (None, Some err) |}.

(** A client whose mutations answer [res], whose entity lookup answers [e]
    and whose delete answers without errors. *)
Definition answeringClient
    (res : synthetics.SyntheticsPrivateLocationMutationResult)
    (e : entities.EntityInterface) : NewRelic :=
  {| SyntheticsCreatePrivateLocationWithContext := fun _ _ _ _ => (Some res, None);
     GetEntity := fun _ => (Some e, None);
     SyntheticsUpdatePrivateLocation := fun _ _ _ => (Some res, None);
     SyntheticsDeletePrivateLocationWithContext :=
       fun _ => (Some (synthetics.mkDeleteResult []), None) |}.

Definition sampleResult
    (errs : list synthetics.SyntheticsPrivateLocationMutationError)
  : synthetics.SyntheticsPrivateLocationMutationResult :=
  synthetics.mkMutationResult 42 "dom-1" errs "GUID-1" "key-1" "loc-1"
    "lab" true.

Definition sampleEntity : entities.GenericEntityOutline :=
  entities.mkGenericEntityOutline 42 "SYNTH" "PRIVATE_LOCATION" "GUID-1"
    "lab-renamed" "PRIVATE_LOCATION".

Definition sampleData : schema.ResourceData :=
  schema.mkResourceData "GUID-0"
    (list_to_map [
       ("account_id", schema.VInt 7);
       ("description", schema.VString "a lab");
       ("name", schema.VString "lab");
       ("verified_script_execution", schema.VBool true) ]).

(** A rule of the account, a lookup that finds exactly the rules whose ID is
    listed, and a state that records one data partition rule next to a
    resource of another type. *)
Definition sampleRule : DataPartitionRuleConfig :=
  mkDataPartitionRuleConfig 1 "app" true "hostname" "localhost" "EQUALS"
    "SECONDARY" "Log_Test_abc".

Definition lookupAmong (existing : list string)
  : NewRelic -> Z -> string -> option DataPartitionRuleConfig * option error :=
  fun _ _ id =>
    if bool_decide (id ∈ existing) then (Some sampleRule, None)
    else (None, Some (errorString "data partition rule not found")).

Definition sampleState : terraform.State :=
  [ ("newrelic_data_partition_rule.foo",
     terraform.mkResourceState "newrelic_data_partition_rule"
       (terraform.mkInstanceState "rule-1"));
    ("newrelic_synthetics_private_location.bar",
     terraform.mkResourceState "newrelic_synthetics_private_location"
       (terraform.mkInstanceState "GUID-0")) ].

Definition sampleMeta : ProviderConfig :=
  mkProviderConfig (answeringClient (sampleResult []) entities.OtherEntity) 1.

(** * Properties *)

(** ** The schema and the attribute accessors *)

Section ResourceDataFacts.

Variable sch : gmap string schema.Schema.

Lemma Set_Id d key v : schema.Id (fst (schema.Set_ sch d key v)) = schema.Id d.
Proof.
    unfold schema.Set_. destruct (sch !! key) as [s|]; [|done].
    by case_decide.
Qed.

Lemma Set_attrs_ne d key v k :
  k ≠ key ->
  schema.attrs (fst (schema.Set_ sch d key v)) !! k = schema.attrs d !! k.
Proof.
    intros Hne. unfold schema.Set_. destruct (sch !! key) as [s|]; [|done].
    case_decide; [|done]. cbn. by rewrite lookup_insert_ne.
Qed.

Lemma Get_Set_ne d key v k :
  k ≠ key ->
  schema.Get sch (fst (schema.Set_ sch d key v)) k = schema.Get sch d k.
Proof.
    intros Hne. unfold schema.Get. by rewrite Set_attrs_ne.
Qed.

Lemma Get_Set_eq d key v s :
  sch !! key = Some s -> schema.typeOf v = schema.Type_ s ->
  schema.Get sch (fst (schema.Set_ sch d key v)) key = Some v.
Proof.
    intros Hs Ht. unfold schema.Get, schema.Set_. rewrite Hs.
    rewrite decide_True by done. cbn. rewrite lookup_insert_eq.
    by rewrite decide_True.
Qed.

Lemma asString_Get d key s :
  sch !! key = Some s -> schema.Type_ s = schema.TypeString ->
  exists x, schema.asString (schema.Get sch d key) = Some x.
Proof.
    intros Hs Ht. unfold schema.Get. rewrite Hs, Ht.
    destruct (schema.attrs d !! key) as [[n|x|b]|]; cbn; eauto.
Qed.

Lemma asBool_Get d key s :
  sch !! key = Some s -> schema.Type_ s = schema.TypeBool ->
  exists b, schema.asBool (schema.Get sch d key) = Some b.
Proof.
    intros Hs Ht. unfold schema.Get. rewrite Hs, Ht.
    destruct (schema.attrs d !! key) as [[n|x|b]|]; cbn; eauto.
Qed.

End ResourceDataFacts.

(** The three attributes the handlers read are declared with the types the
    handlers assert, so the assertions cannot fail. *)
Lemma asString_description d :
  schema.asString (dGet d "description") = Some (stringAttr d "description").
Proof.
  destruct (asString_Get syntheticsPrivateLocationSchema d "description" _
              eq_refl eq_refl) as [x Hx].
  unfold stringAttr. by rewrite Hx.
Qed.

Lemma asString_name d :
  schema.asString (dGet d "name") = Some (stringAttr d "name").
Proof.
  destruct (asString_Get syntheticsPrivateLocationSchema d "name" _
              eq_refl eq_refl) as [x Hx].
  unfold stringAttr. by rewrite Hx.
Qed.

Lemma asBool_verified_script_execution d :
  schema.asBool (dGet d "verified_script_execution")
  = Some (boolAttr d "verified_script_execution").
Proof.
  destruct (asBool_Get syntheticsPrivateLocationSchema d
              "verified_script_execution" _ eq_refl eq_refl) as [x Hx].
  unfold boolAttr. by rewrite Hx.
Qed.

(** The append loop adds one diagnostic per error, in order. *)
Lemma appendErrors_map errs : forall diags,
  appendErrors diags errs = (diags ++ map errorDiagnostic errs)%list.
Proof.
  induction errs as [|err rest IH]; intros diags; cbn.
  - by rewrite app_nil_r.
  - rewrite IH. by rewrite <- app_assoc.
Qed.

Lemma FromErr_nonempty err : diag.FromErr (Some err) ≠ [].
Proof. done. Qed.

(** ** Errors of the client call *)

(** C1: when the client call of Create, Update, Delete, or of Read outside
    the not-found case, returns an error, the handler returns the
    diagnostics [diag.FromErr] makes of that error, which are one Error
    diagnostic with the error text as summary, hence not empty; the state is
    returned as it was. *)
Theorem C1_client_error_surfaces_as_diagnostics :
  forall (selectAccountID : ProviderConfig -> schema.ResourceData -> Z)
         (d : schema.ResourceData) (meta : ProviderConfig) (err : error),
    (forall res,
        SyntheticsCreatePrivateLocationWithContext (NewClient meta)
          (selectAccountID meta d) (stringAttr d "description")
          (stringAttr d "name") (boolAttr d "verified_script_execution")
        = (res, Some err) ->
        resourceNewRelicSyntheticsPrivateLocationCreate selectAccountID d meta
        = (d, Return (diag.FromErr (Some err))))
    /\ (forall res,
        SyntheticsUpdatePrivateLocation (NewClient meta)
          (stringAttr d "description") (schema.Id d)
          (boolAttr d "verified_script_execution")
        = (res, Some err) ->
        resourceNewRelicSyntheticsPrivateLocationUpdate d meta
        = (d, Return (diag.FromErr (Some err))))
    /\ (forall res,
        SyntheticsDeletePrivateLocationWithContext (NewClient meta) (schema.Id d)
        = (res, Some err) ->
        resourceNewRelicSyntheticsPrivateLocationDelete d meta
        = (d, Return (diag.FromErr (Some err))))
    /\ (forall res,
        GetEntity (NewClient meta) (schema.Id d) = (res, Some err) ->
        isNotFound err = false ->
        resourceNewRelicSyntheticsPrivateLocationRead d meta
        = (d, Return (diag.FromErr (Some err))))
    /\ diag.FromErr (Some err) = [ diag.mkDiagnostic diag.Error_ (Error err) "" ]
    /\ diag.FromErr (Some err) ≠ [].
Proof.
  intros sel d meta err. repeat split.
  - intros res Hcall.
    unfold resourceNewRelicSyntheticsPrivateLocationCreate.
    rewrite asString_description, asString_name,
      asBool_verified_script_execution.
    rewrite Hcall. by destruct res.
  - intros res Hcall.
    unfold resourceNewRelicSyntheticsPrivateLocationUpdate.
    rewrite asString_description, asBool_verified_script_execution.
    rewrite Hcall. by destruct res.
  - intros res Hcall.
    unfold resourceNewRelicSyntheticsPrivateLocationDelete.
    by rewrite Hcall.
  - intros res Hcall Hnf.
    unfold resourceNewRelicSyntheticsPrivateLocationRead.
    rewrite Hcall. destruct res; by rewrite Hnf.
  - apply FromErr_nonempty.
Qed.

Lemma C1_witness :
  let err := errorString "503 service unavailable" in
  let meta := mkProviderConfig (failingClient err) 1 in
  resourceNewRelicSyntheticsPrivateLocationCreate providerAccountID sampleData meta
  = (sampleData, Return [ diag.mkDiagnostic diag.Error_ "503 service unavailable" "" ])
  /\ resourceNewRelicSyntheticsPrivateLocationUpdate sampleData meta
     = (sampleData, Return [ diag.mkDiagnostic diag.Error_ "503 service unavailable" "" ])
  /\ resourceNewRelicSyntheticsPrivateLocationDelete sampleData meta
     = (sampleData, Return [ diag.mkDiagnostic diag.Error_ "503 service unavailable" "" ])
  /\ resourceNewRelicSyntheticsPrivateLocationRead sampleData meta
     = (sampleData, Return [ diag.mkDiagnostic diag.Error_ "503 service unavailable" "" ]).
Proof.
  intros err meta.
  destruct (C1_client_error_surfaces_as_diagnostics
              providerAccountID sampleData meta err)
    as (Hc & Hu & Hd & Hr & _ & _).
  split; [exact (Hc None eq_refl)|].
  split; [exact (Hu None eq_refl)|].
  split; [exact (Hd None eq_refl)|].
  exact (Hr None eq_refl eq_refl).
Defined.

(** ** Errors carried by the response of Create *)

(** C2: when the create call answers with a non-empty [Errors] list, Create
    returns one Error diagnostic per response error, in order, with the
    error's description as summary, and the state (resource ID and
    attributes) is left as it was; when the call answers without errors,
    the resource ID becomes the returned GUID and domain_id, key,
    location_id and guid hold the values of the response, the other
    attributes being untouched. *)
Theorem C2_create_response_errors_or_state :
  forall (selectAccountID : ProviderConfig -> schema.ResourceData -> Z)
         (d : schema.ResourceData) (meta : ProviderConfig)
         (res : synthetics.SyntheticsPrivateLocationMutationResult),
    SyntheticsCreatePrivateLocationWithContext (NewClient meta)
      (selectAccountID meta d) (stringAttr d "description")
      (stringAttr d "name") (boolAttr d "verified_script_execution")
    = (Some res, None) ->
    (synthetics.Errors res ≠ [] ->
       resourceNewRelicSyntheticsPrivateLocationCreate selectAccountID d meta
       = (d, Return (map errorDiagnostic (synthetics.Errors res))))
    /\ (synthetics.Errors res = [] ->
       let d' := fst (resourceNewRelicSyntheticsPrivateLocationCreate
                        selectAccountID d meta) in
       snd (resourceNewRelicSyntheticsPrivateLocationCreate
              selectAccountID d meta) = Return []
       /\ schema.Id d' = synthetics.GUID res
       /\ dGet d' "domain_id" = Some (schema.VString (synthetics.DomainId res))
       /\ dGet d' "key" = Some (schema.VString (synthetics.Key res))
       /\ dGet d' "location_id" = Some (schema.VString (synthetics.LocationId res))
       /\ dGet d' "guid" = Some (schema.VString (synthetics.GUID res))
       /\ (forall k, k ≠ "domain_id" -> k ≠ "key" -> k ≠ "location_id" ->
                     k ≠ "guid" ->
                     schema.attrs d' !! k = schema.attrs d !! k)).
Proof.
  intros sel d meta res Hcall.
  unfold resourceNewRelicSyntheticsPrivateLocationCreate.
  rewrite asString_description, asString_name,
    asBool_verified_script_execution, Hcall.
  split.
  - intros Herrs. rewrite appendErrors_map. cbn [app].
    destruct (synthetics.Errors res) as [|e errs]; [done|]. done.
  - intros Herrs. rewrite Herrs. cbn [length Nat.ltb Nat.leb fst snd].
    split; [done|].
    split; [by rewrite !Set_Id|].
    split; [rewrite !Get_Set_ne by done; by erewrite Get_Set_eq|].
    split; [rewrite !Get_Set_ne by done; by erewrite Get_Set_eq|].
    split; [rewrite !Get_Set_ne by done; by erewrite Get_Set_eq|].
    split; [by erewrite Get_Set_eq|].
    intros k H1 H2 H3 H4. by rewrite !Set_attrs_ne.
Qed.

Lemma C2_witness :
  let taken := synthetics.mkMutationError "name already in use" "BAD_REQUEST" in
  let denied := synthetics.mkMutationError "not allowed" "UNAUTHORIZED" in
  let rejecting :=
    mkProviderConfig
      (answeringClient (sampleResult [taken; denied]) entities.OtherEntity) 1 in
  let accepting :=
    mkProviderConfig
      (answeringClient (sampleResult []) entities.OtherEntity) 1 in
  resourceNewRelicSyntheticsPrivateLocationCreate providerAccountID sampleData rejecting
  = (sampleData,
     Return [ diag.mkDiagnostic diag.Error_ "name already in use" "";
              diag.mkDiagnostic diag.Error_ "not allowed" "" ])
  /\ schema.Id (fst (resourceNewRelicSyntheticsPrivateLocationCreate
                       providerAccountID sampleData accepting)) = "GUID-1"
  /\ dGet (fst (resourceNewRelicSyntheticsPrivateLocationCreate
                  providerAccountID sampleData accepting)) "key"
     = Some (schema.VString "key-1").
Proof.
  intros taken denied rejecting accepting.
  split.
  - apply (C2_create_response_errors_or_state providerAccountID sampleData
             rejecting (sampleResult [taken; denied]) eq_refl).
    discriminate.
  - destruct (C2_create_response_errors_or_state providerAccountID sampleData
                accepting (sampleResult []) eq_refl) as [_ Hok].
    destruct (Hok eq_refl) as (_ & Hid & _ & Hkey & _).
    split; [exact Hid | exact Hkey].
Defined.

(** ** Read *)

(** C4, as the code has it: a successful Read whose answer is a generic
    entity outline sets guid and name from the answer's GUID and Name and
    leaves the resource ID and every other attribute as they were; an answer
    of another entity type changes nothing. *)
Theorem C4_read_sets_guid_and_name_only :
  forall (d : schema.ResourceData) (meta : ProviderConfig)
         (resp : entities.EntityInterface),
    GetEntity (NewClient meta) (schema.Id d) = (Some resp, None) ->
    let d' := fst (resourceNewRelicSyntheticsPrivateLocationRead d meta) in
    snd (resourceNewRelicSyntheticsPrivateLocationRead d meta) = Return []
    /\ schema.Id d' = schema.Id d
    /\ match resp with
       | entities.PtrGenericEntityOutline e =>
           dGet d' "guid" = Some (schema.VString (entities.GUID e))
           /\ dGet d' "name" = Some (schema.VString (entities.Name e))
           /\ (forall k, k ≠ "guid" -> k ≠ "name" ->
                         schema.attrs d' !! k = schema.attrs d !! k)
       | entities.OtherEntity => d' = d
       end.
Proof.
  intros d meta resp Hcall.
  unfold resourceNewRelicSyntheticsPrivateLocationRead.
  rewrite Hcall. cbn [fst snd].
  split; [done|].
  destruct resp as [e|]; cbn [setCommonSyntheticsPrivateLocationAttributes].
  - split; [by rewrite !Set_Id|].
    split; [rewrite Get_Set_ne by done; by erewrite Get_Set_eq|].
    split; [by erewrite Get_Set_eq|].
    intros k H1 H2. by rewrite !Set_attrs_ne.
  - done.
Qed.

Lemma C4_witness :
  let meta :=
    mkProviderConfig
      (answeringClient (sampleResult [])
         (entities.PtrGenericEntityOutline sampleEntity)) 1 in
  let d' := fst (resourceNewRelicSyntheticsPrivateLocationRead sampleData meta) in
  dGet d' "guid" = Some (schema.VString "GUID-1")
  /\ dGet d' "name" = Some (schema.VString "lab-renamed")
  /\ schema.attrs d' !! "description" = Some (schema.VString "a lab").
Proof.
  intros meta d'.
  destruct (C4_read_sets_guid_and_name_only sampleData meta
              (entities.PtrGenericEntityOutline sampleEntity) eq_refl)
    as (_ & _ & Hguid & Hname & Hrest).
  split; [exact Hguid|]. split; [exact Hname|].
  subst d'. rewrite (Hrest "description") by done. reflexivity.
Defined.

(** C4 as stated fails: the answer carries account 42, and after the
    successful Read the attribute account_id still holds 7; description and
    verified_script_execution keep their values as well, the answer having no
    field for them. *)
Lemma C4_counterexample :
  let meta :=
    mkProviderConfig
      (answeringClient (sampleResult [])
         (entities.PtrGenericEntityOutline sampleEntity)) 1 in
  let d' := fst (resourceNewRelicSyntheticsPrivateLocationRead sampleData meta) in
  GetEntity (NewClient meta) (schema.Id sampleData)
  = (Some (entities.PtrGenericEntityOutline sampleEntity), None)
  /\ snd (resourceNewRelicSyntheticsPrivateLocationRead sampleData meta) = Return []
  /\ entities.AccountID sampleEntity = 42
  /\ dGet d' "account_id" = Some (schema.VInt 7)
  /\ dGet d' "account_id" ≠ Some (schema.VInt (entities.AccountID sampleEntity))
  /\ dGet d' "description" = dGet sampleData "description"
  /\ dGet d' "domain_id" = dGet sampleData "domain_id".
Proof.
  intros meta d'. subst d'.
  split; [reflexivity|]. split; [reflexivity|]. split; [reflexivity|].
  assert (Hacc : dGet (fst (resourceNewRelicSyntheticsPrivateLocationRead
                              sampleData meta)) "account_id"
                 = Some (schema.VInt 7)) by (vm_compute; reflexivity).
  split; [exact Hacc|].
  split; [rewrite Hacc; discriminate|].
  split; vm_compute; reflexivity.
Qed.

(** C9: when the entity lookup of Read fails with a NotFound error, Read
    clears the resource ID and returns nil diagnostics, leaving the
    attributes as they were; Read returns diagnostics that are not empty
    exactly when the lookup fails with an error that is not NotFound, and
    these are the diagnostics of that error. *)
Theorem C9_read_not_found_clears_id :
  forall (d : schema.ResourceData) (meta : ProviderConfig),
    (forall res msg,
        GetEntity (NewClient meta) (schema.Id d) = (res, Some (NotFound msg)) ->
        resourceNewRelicSyntheticsPrivateLocationRead d meta
        = (schema.SetId d "", Return [])
        /\ schema.Id (fst (resourceNewRelicSyntheticsPrivateLocationRead d meta)) = ""
        /\ schema.attrs (fst (resourceNewRelicSyntheticsPrivateLocationRead d meta))
           = schema.attrs d)
    /\ (forall diags,
        snd (resourceNewRelicSyntheticsPrivateLocationRead d meta) = Return diags ->
        diags ≠ [] ->
        exists err,
          snd (GetEntity (NewClient meta) (schema.Id d)) = Some err
          /\ isNotFound err = false
          /\ diags = diag.FromErr (Some err))
    /\ (forall err,
        snd (GetEntity (NewClient meta) (schema.Id d)) = Some err ->
        isNotFound err = false ->
        snd (resourceNewRelicSyntheticsPrivateLocationRead d meta)
        = Return (diag.FromErr (Some err))).
Proof.
  intros d meta.
  unfold resourceNewRelicSyntheticsPrivateLocationRead.
  destruct (GetEntity (NewClient meta) (schema.Id d)) as [res oerr] eqn:Hcall.
  split; [|split].
  - intros res' msg [= -> ->]. by destruct res'.
  - intros diags Hret Hne. cbn [snd].
    destruct oerr as [err|].
    + exists err. destruct err as [msg|msg], res as [resp|];
        cbn in Hret; by simplify_eq.
    + destruct res; cbn in Hret; by simplify_eq.
  - intros err Herr Hnf. cbn [snd] in Herr. subst oerr.
    destruct res; by rewrite Hnf.
Qed.

Lemma C9_witness :
  let meta := mkProviderConfig (failingClient (NotFound "404 not found")) 1 in
  resourceNewRelicSyntheticsPrivateLocationRead sampleData meta
  = (schema.mkResourceData "" (schema.attrs sampleData), Return [])
  /\ snd (resourceNewRelicSyntheticsPrivateLocationRead sampleData
            (mkProviderConfig (failingClient (errorString "500")) 1))
     = Return [ diag.mkDiagnostic diag.Error_ "500" "" ].
Proof.
  intros meta. split.
  - destruct (C9_read_not_found_clears_id sampleData meta) as (Hnf & _ & _).
    exact (proj1 (Hnf None "404 not found" eq_refl)).
  - destruct (C9_read_not_found_clears_id sampleData
                (mkProviderConfig (failingClient (errorString "500")) 1))
      as (_ & _ & Herr).
    exact (Herr (errorString "500") eq_refl eq_refl).
Defined.

(** ** Update *)

(** C10: Update returns the state it was given, resource ID and attributes,
    on every outcome; and what it returns depends on the state only through
    the resource ID and the attributes description and
    verified_script_execution. *)
Theorem C10_update_leaves_state_unchanged :
  forall (meta : ProviderConfig),
    (forall d, fst (resourceNewRelicSyntheticsPrivateLocationUpdate d meta) = d)
    /\ (forall d1 d2,
        schema.Id d1 = schema.Id d2 ->
        dGet d1 "description" = dGet d2 "description" ->
        dGet d1 "verified_script_execution" = dGet d2 "verified_script_execution" ->
        snd (resourceNewRelicSyntheticsPrivateLocationUpdate d1 meta)
        = snd (resourceNewRelicSyntheticsPrivateLocationUpdate d2 meta)).
Proof.
  intros meta. split.
  - intros d. unfold resourceNewRelicSyntheticsPrivateLocationUpdate.
    destruct (schema.asString (dGet d "description")); [|done].
    destruct (schema.asBool (dGet d "verified_script_execution")); [|done].
    destruct (SyntheticsUpdatePrivateLocation _ _ _ _) as [[res|] [err|]];
      try done.
    cbn [fst snd]. by case_match.
  - intros d1 d2 Hid Hdesc Hvse.
    unfold resourceNewRelicSyntheticsPrivateLocationUpdate.
    rewrite Hid, Hdesc, Hvse.
    destruct (schema.asString (dGet d2 "description")); [|done].
    destruct (schema.asBool (dGet d2 "verified_script_execution")); [|done].
    destruct (SyntheticsUpdatePrivateLocation _ _ _ _) as [[res|] [err|]];
      try done.
    cbn [fst snd]. by case_match.
Qed.

Lemma C10_witness :
  let meta :=
    mkProviderConfig (answeringClient (sampleResult []) entities.OtherEntity) 1 in
  let other :=
    schema.mkResourceData "GUID-0"
      (<["name" := schema.VString "another"]> (schema.attrs sampleData)) in
  fst (resourceNewRelicSyntheticsPrivateLocationUpdate sampleData meta) = sampleData
  /\ snd (resourceNewRelicSyntheticsPrivateLocationUpdate sampleData meta)
     = snd (resourceNewRelicSyntheticsPrivateLocationUpdate other meta).
Proof.
  intros meta other.
  destruct (C10_update_leaves_state_unchanged meta) as [Hframe Hreads].
  split; [exact (Hframe sampleData)|].
  apply Hreads; reflexivity.
Defined.

(** ** The resource definition *)

(** C8: the resource definition of the synthetics private location
    registers a create, a read, an update and a delete callback, each bound
    to the handler of that name, an importer, bound to the pass-through
    importer, and a schema, which declares exactly the eight attributes. *)
Theorem C8_resource_follows_crud_template :
  forall (selectAccountID : ProviderConfig -> schema.ResourceData -> Z),
    let r := resourceNewRelicSyntheticsPrivateLocation selectAccountID in
    CreateContext r
    = Some (resourceNewRelicSyntheticsPrivateLocationCreate selectAccountID)
    /\ ReadContext r = Some resourceNewRelicSyntheticsPrivateLocationRead
    /\ UpdateContext r = Some resourceNewRelicSyntheticsPrivateLocationUpdate
    /\ DeleteContext r = Some resourceNewRelicSyntheticsPrivateLocationDelete
    /\ Importer r
       = Some (mkResourceImporter schema.ImportStatePassthroughContext)
    /\ Schema r = syntheticsPrivateLocationSchema
    /\ (forall key,
          is_Some (Schema r !! key) <->
          key ∈ [ "account_id"; "description"; "name";
                  "verified_script_execution"; "domain_id"; "guid"; "key";
                  "location_id" ])
    /\ schema.Type_ <$> Schema r !! "account_id" = Some schema.TypeInt
    /\ schema.Type_ <$> Schema r !! "description" = Some schema.TypeString
    /\ schema.Type_ <$> Schema r !! "name" = Some schema.TypeString
    /\ schema.Type_ <$> Schema r !! "verified_script_execution"
       = Some schema.TypeBool
    /\ schema.Type_ <$> Schema r !! "domain_id" = Some schema.TypeString
    /\ schema.Type_ <$> Schema r !! "guid" = Some schema.TypeString
    /\ schema.Type_ <$> Schema r !! "key" = Some schema.TypeString
    /\ schema.Type_ <$> Schema r !! "location_id" = Some schema.TypeString.
Proof.
  intros sel r. subst r. cbn [CreateContext ReadContext UpdateContext
    DeleteContext Importer Schema resourceNewRelicSyntheticsPrivateLocation].
  do 6 (split; [reflexivity|]).
  split; [|repeat split].
  intros key. unfold syntheticsPrivateLocationSchema.
  rewrite <- elem_of_dom, dom_list_to_map_L.
  cbn [fmap list_fmap fst list_to_set foldr].
  rewrite !elem_of_cons, elem_of_nil. set_solver.
Qed.

(** ** Request authorization *)

Lemma SetHeader_lookup_eq r key value :
  http.Header (http.SetHeader r key value) !! key = Some [value].
Proof. unfold http.SetHeader. cbn. apply lookup_insert_eq. Qed.

Lemma SetHeader_lookup_ne r key value k :
  k ≠ key -> http.Header (http.SetHeader r key value) !! k = http.Header r !! k.
Proof. intros Hne. unfold http.SetHeader. cbn. by apply lookup_insert_ne. Qed.

(** The fourth authorizer of the file, for the event API, writes the insert
    key and nothing else. *)
Lemma InsightsInsertKeyAuthorizer_sets_insert_key r c :
  let r' := http.AuthorizeRequest http.mkInsightsInsertKeyAuthorizer r c in
  http.Header r' !! "X-Insert-Key" = Some [http.InsightsInsertKey c]
  /\ (forall k, k ≠ "X-Insert-Key" -> http.Header r' !! k = http.Header r !! k).
Proof.
  cbn zeta. unfold http.AuthorizeRequest,
    http.InsightsInsertKeyAuthorizer_AuthorizeRequest.
  split; [apply SetHeader_lookup_eq|].
  intros k Hk. by apply SetHeader_lookup_ne.
Qed.

(** C6: for every request and config, the NerdGraph authorizer sets Api-Key
    to the personal API key, the classic V2 authorizer sets X-Api-Key to the
    admin API key, and the personal-key-capable V2 authorizer sets Api-Key to
    the personal API key and Auth-Type to User-Api-Key when the personal key
    is not empty and X-Api-Key to the admin key otherwise.  Each of them
    leaves every other header, the method and the URL of the request as they
    were, and the values written are those of the config alone. *)
Theorem C6_authorizers_set_api_key_headers :
  forall (r : http.Request) (c : http.Config),
    (let r' := http.AuthorizeRequest http.mkNerdGraphAuthorizer r c in
     http.Header r' !! "Api-Key" = Some [http.PersonalAPIKey c]
     /\ (forall k, k ≠ "Api-Key" -> http.Header r' !! k = http.Header r !! k)
     /\ http.method r' = http.method r /\ http.url r' = http.url r)
    /\ (let r' := http.AuthorizeRequest http.mkClassicV2Authorizer r c in
     http.Header r' !! "X-Api-Key" = Some [http.AdminAPIKey c]
     /\ (forall k, k ≠ "X-Api-Key" -> http.Header r' !! k = http.Header r !! k)
     /\ http.method r' = http.method r /\ http.url r' = http.url r)
    /\ (let r' :=
          http.AuthorizeRequest http.mkPersonalAPIKeyCapableV2Authorizer r c in
     (http.PersonalAPIKey c ≠ "" ->
        http.Header r' !! "Api-Key" = Some [http.PersonalAPIKey c]
        /\ http.Header r' !! "Auth-Type" = Some ["User-Api-Key"]
        /\ (forall k, k ≠ "Api-Key" -> k ≠ "Auth-Type" ->
                      http.Header r' !! k = http.Header r !! k))
     /\ (http.PersonalAPIKey c = "" ->
        http.Header r' !! "X-Api-Key" = Some [http.AdminAPIKey c]
        /\ (forall k, k ≠ "X-Api-Key" ->
                      http.Header r' !! k = http.Header r !! k))
     /\ http.method r' = http.method r /\ http.url r' = http.url r).
Proof.
  intros r c. split; [|split].
  - cbn zeta. unfold http.AuthorizeRequest,
      http.NerdGraphAuthorizer_AuthorizeRequest.
    split; [apply SetHeader_lookup_eq|].
    split; [intros k Hk; by apply SetHeader_lookup_ne|done].
  - cbn zeta. unfold http.AuthorizeRequest,
      http.ClassicV2Authorizer_AuthorizeRequest.
    split; [apply SetHeader_lookup_eq|].
    split; [intros k Hk; by apply SetHeader_lookup_ne|done].
  - cbn zeta. unfold http.AuthorizeRequest,
      http.PersonalAPIKeyCapableV2Authorizer_AuthorizeRequest.
    destruct (String.eqb_spec (http.PersonalAPIKey c) "") as [Hempty|Hkey];
      cbn [negb].
    + split; [done|].
      split; [|done]. intros _.
      split; [apply SetHeader_lookup_eq|].
      intros k Hk. by apply SetHeader_lookup_ne.
    + split; [|split; [done|done]]. intros _.
      split; [rewrite SetHeader_lookup_ne by done; apply SetHeader_lookup_eq|].
      split; [apply SetHeader_lookup_eq|].
      intros k Hk1 Hk2. by rewrite !SetHeader_lookup_ne.
Qed.

Lemma C6_witness :
  let r := http.mkRequest "GET" "https://api.newrelic.com/v2/applications.json"
             {[ "Accept" := ["application/json"] ]} in
  let personal := http.mkConfig "NRAK-1" "admin-1" "insert-1" in
  let classic := http.mkConfig "" "admin-1" "insert-1" in
  http.Header (http.AuthorizeRequest http.mkPersonalAPIKeyCapableV2Authorizer
                 r personal) !! "Api-Key" = Some ["NRAK-1"]
  /\ http.Header (http.AuthorizeRequest http.mkPersonalAPIKeyCapableV2Authorizer
                    r personal) !! "Auth-Type" = Some ["User-Api-Key"]
  /\ http.Header (http.AuthorizeRequest http.mkPersonalAPIKeyCapableV2Authorizer
                    r classic) !! "X-Api-Key" = Some ["admin-1"]
  /\ http.Header (http.AuthorizeRequest http.mkPersonalAPIKeyCapableV2Authorizer
                    r classic) !! "Accept" = Some ["application/json"].
Proof.
  intros r personal classic.
  destruct (C6_authorizers_set_api_key_headers r personal)
    as (_ & _ & Hset & _ & _).
  destruct (C6_authorizers_set_api_key_headers r classic)
    as (_ & _ & _ & Hunset & _).
  destruct Hset as (Hkey & Htype & _); [discriminate|].
  destruct Hunset as (Hadmin & Hrest); [reflexivity|].
  split; [exact Hkey|]. split; [exact Htype|]. split; [exact Hadmin|].
  rewrite Hrest by discriminate. reflexivity.
Defined.

(** ** The destroy check of the data partition rule tests *)

Section DestroyCheck.

Variable testAccountID : Z.
Variable testAccProviderMeta : ProviderConfig.
Variable LogConfigurationsDataPartitionRule : Type.
Variable getDataPartitionByID :
  NewRelic -> Z -> string ->
  option LogConfigurationsDataPartitionRule * option error.

(** What the check computes: it returns nil exactly when the lookup of every
    data partition rule of the state returns a nil error. *)
Lemma destroy_check_nil_iff (s : terraform.State) :
  testAccCheckNewRelicDataPartitionRuleDestroy testAccountID
    testAccProviderMeta LogConfigurationsDataPartitionRule
    getDataPartitionByID s = None <->
  forall name rs,
    (name, rs) ∈ s ->
    terraform.Type_ rs = "newrelic_data_partition_rule" ->
    snd (getDataPartitionByID (NewClient testAccProviderMeta) testAccountID
           (terraform.ID (terraform.Primary rs))) = None.
Proof.
  induction s as [|[name0 rs0] rest IH]; cbn.
  - split; [|done]. intros _ name rs Hin. by apply elem_of_nil in Hin.
  - destruct (String.eqb_spec (terraform.Type_ rs0)
                "newrelic_data_partition_rule") as [Hty|Hty]; cbn [negb].
    + destruct (snd (getDataPartitionByID _ _ _)) as [err|] eqn:Hlook.
      * split; [done|]. intros Hall.
        specialize (Hall name0 rs0 (list_elem_of_here _ _) Hty). congruence.
      * rewrite IH. split.
        -- intros Hall name rs [[= -> ->]|Hin]%elem_of_cons Hrs; [done|].
           exact (Hall name rs Hin Hrs).
        -- intros Hall name rs Hin Hrs.
           apply (Hall name rs); [by apply list_elem_of_further | done].
    + rewrite IH. split.
      * intros Hall name rs [[= -> ->]|Hin]%elem_of_cons Hrs; [done|].
        exact (Hall name rs Hin Hrs).
      * intros Hall name rs Hin Hrs.
        apply (Hall name rs); [by apply list_elem_of_further | done].
Qed.

End DestroyCheck.

(** C5, evaluated: the state records the rule rule-1.  When the lookup still
    finds rule-1, the check returns nil; when rule-1 is gone and the lookup
    fails, the check returns the error that the rule still exists. *)
Theorem C5_destroy_check_passes_a_rule_that_is_found :
  testAccCheckNewRelicDataPartitionRuleDestroy 1 sampleMeta
    DataPartitionRuleConfig (lookupAmong ["rule-1"]) sampleState
  = None
  /\ fst (lookupAmong ["rule-1"] (NewClient sampleMeta) 1 "rule-1")
     = Some sampleRule
  /\ testAccCheckNewRelicDataPartitionRuleDestroy 1 sampleMeta
       DataPartitionRuleConfig (lookupAmong []) sampleState
     = Some (errorString
               "data partition rule still exists: data partition rule not found").
Proof. split; [|split]; vm_compute; reflexivity. Qed.

(** ** Data partition rules: duplicate names and import *)

Lemma nameInUse_insert remote id rule :
  nameInUse (<[id := rule]> remote) (target_data_partition rule).
Proof.
  unfold nameInUse. apply map_Exists_lookup.
  exists id, rule. split; [apply lookup_insert_eq | reflexivity].
Qed.

(** C3: whatever rules the account holds, when two data partition rules of
    one configuration have the same target name and are created one after
    the other, the creation of the second is rejected: it returns one Error
    diagnostic whose text is the vendor's code
    DUPLICATE_DATA_PARTITION_RULE_NAME, which is the text the validation test
    expects, and it changes neither the service nor the state. *)
Theorem C3_second_rule_of_same_name_is_rejected :
  forall (newID : gmap string DataPartitionRuleConfig -> string)
         (remote : gmap string DataPartitionRuleConfig)
         (d1 d2 : DataPartitionRuleData),
    target_data_partition (rule_attributes d1)
    = target_data_partition (rule_attributes d2) ->
    let remote1 :=
      fst (fst (resourceNewRelicDataPartitionCreate newID remote d1)) in
    resourceNewRelicDataPartitionCreate newID remote1 d2
    = (remote1, d2,
       [ diag.mkDiagnostic diag.Error_ DUPLICATE_DATA_PARTITION_RULE_NAME "" ])
    /\ DUPLICATE_DATA_PARTITION_RULE_NAME = expectedMsg.
Proof.
  intros newID remote d1 d2 Hname remote1. split; [|reflexivity].
  assert (Hused : nameInUse remote1 (target_data_partition (rule_attributes d2))).
  { subst remote1. rewrite <- Hname.
    unfold resourceNewRelicDataPartitionCreate, createDataPartitionRule.
    case_decide as Hfirst; [done|].
    destruct (resourceNewRelicDataPartitionRead _ _) as [d' diags].
    cbn [fst]. apply nameInUse_insert. }
  unfold resourceNewRelicDataPartitionCreate at 1, createDataPartitionRule.
  by rewrite decide_True.
Qed.

Lemma C3_witness :
  let rules := testAccNewRelicDataPartitionRule_ValidateName 1 "app" "abc" in
  let states := map (fun r => mkDataPartitionRuleData "" (snd r)) rules in
  let newID := fun _ : gmap string DataPartitionRuleConfig => "rule-1" in
  exists foo bar,
    states = [foo; bar]
    /\ resourceNewRelicDataPartitionCreate newID ∅ foo
       = ({[ "rule-1" := rule_attributes foo ]},
          mkDataPartitionRuleData "rule-1" (rule_attributes foo), [])
    /\ resourceNewRelicDataPartitionCreate newID
         {[ "rule-1" := rule_attributes foo ]} bar
       = ({[ "rule-1" := rule_attributes foo ]}, bar,
          [ diag.mkDiagnostic diag.Error_ "DUPLICATE_DATA_PARTITION_RULE_NAME" "" ]).
Proof.
  intros rules states newID.
  eexists _, _. split; [reflexivity|]. split; [vm_compute; reflexivity|].
  exact (proj1 (C3_second_rule_of_same_name_is_rejected newID ∅
                  (mkDataPartitionRuleData "" (snd ("foo", sampleRule)))
                  (mkDataPartitionRuleData "" (snd ("bar", sampleRule)))
                  eq_refl)).
Defined.

(** C7: for every resource ID, importing the synthetics private location
    through the importer its resource definition registers yields exactly
    one state, whose ID is the given ID, and no error; and when the creation
    of a data partition rule has succeeded, importing the rule by the ID of
    the created state yields exactly that state, attribute for attribute,
    without diagnostics. *)
Theorem C7_import_round_trips_state :
  (forall (selectAccountID : ProviderConfig -> schema.ResourceData -> Z)
          (d : schema.ResourceData) (id : string) (meta : ProviderConfig),
      exists d',
        importState (resourceNewRelicSyntheticsPrivateLocation selectAccountID)
          d id meta = Some ([d'], None)
        /\ schema.Id d' = id
        /\ schema.attrs d' = schema.attrs d)
  /\ (forall (newID : gmap string DataPartitionRuleConfig -> string)
             (remote remote1 : gmap string DataPartitionRuleConfig)
             (d d1 : DataPartitionRuleData),
      resourceNewRelicDataPartitionCreate newID remote d = (remote1, d1, []) ->
      importDataPartitionRule remote1 (rule_ID d1) = [ (d1, []) ]
      /\ rule_attributes d1 = rule_attributes d).
Proof.
  split.
  - intros sel d id meta. exists (schema.SetId d id). done.
  - intros newID remote remote1 d d1.
    unfold resourceNewRelicDataPartitionCreate, createDataPartitionRule,
      importDataPartitionRule, resourceNewRelicDataPartitionRead.
    case_decide as Hused; [done|]. cbn [rule_ID].
    rewrite lookup_insert_eq. intros [= <- <-]. cbn [map rule_ID].
    by rewrite lookup_insert_eq.
Qed.

Lemma C7_witness :
  let newID := fun _ : gmap string DataPartitionRuleConfig => "rule-1" in
  let created :=
    resourceNewRelicDataPartitionCreate newID ∅
      (mkDataPartitionRuleData "" sampleRule) in
  created
  = ({[ "rule-1" := sampleRule ]}, mkDataPartitionRuleData "rule-1" sampleRule, [])
  /\ importDataPartitionRule {[ "rule-1" := sampleRule ]} "rule-1"
     = [ (mkDataPartitionRuleData "rule-1" sampleRule, []) ].
Proof.
  intros newID created.
  assert (Hcreated : created
    = ({[ "rule-1" := sampleRule ]},
       mkDataPartitionRuleData "rule-1" sampleRule, []))
    by (vm_compute; reflexivity).
  split; [exact Hcreated|].
  exact (proj1 (proj2 C7_import_round_trips_state newID ∅ _
                  (mkDataPartitionRuleData "" sampleRule) _ Hcreated)).
Defined.

(** * Further properties of the handlers *)

(** Started on no diagnostics, the append loop gives one per error. *)
Lemma appendErrors_nil errs : appendErrors [] errs = map errorDiagnostic errs.
Proof. by rewrite appendErrors_map. Qed.

Lemma nonempty_length {A} (l : list A) : (0 <? length l)%nat = bool_decide (l ≠ []).
Proof. by destruct l. Qed.

(** X1: when the delete call returns no error, Delete looks at the errors of
    the response, a nil response counting as one without errors: without
    errors it clears the resource ID, keeps the attributes and returns nil;
    with errors it returns one Error diagnostic per error, in order, and the
    state as it was, so the resource stays in the state. *)
Theorem X1_delete_clears_id_unless_response_errors :
  forall (d : schema.ResourceData) (meta : ProviderConfig)
         (res : option synthetics.SyntheticsPrivateLocationDeleteResult),
    SyntheticsDeletePrivateLocationWithContext (NewClient meta) (schema.Id d)
    = (res, None) ->
    let errs := match res with
                | Some r => synthetics.Errors_ r
                | None => []
                end in
    (errs = [] ->
       resourceNewRelicSyntheticsPrivateLocationDelete d meta
       = (schema.mkResourceData "" (schema.attrs d), Return []))
    /\ (errs ≠ [] ->
       resourceNewRelicSyntheticsPrivateLocationDelete d meta
       = (d, Return (map errorDiagnostic errs))).
Proof.
  intros d meta res Hcall errs.
  unfold resourceNewRelicSyntheticsPrivateLocationDelete. rewrite Hcall.
  assert (Hdiags : match res with
                   | Some r => appendErrors [] (synthetics.Errors_ r)
                   | None => []
                   end = map errorDiagnostic errs).
  { subst errs. destruct res; [apply appendErrors_nil | done]. }
  rewrite Hdiags, nonempty_length. split.
  - intros ->. done.
  - intros Hne. rewrite bool_decide_true; [done|].
    by destruct errs.
Qed.

Lemma X1_witness :
  let busy := synthetics.mkMutationError "location has monitors" "BAD_REQUEST" in
  let client errs :=
    {| SyntheticsCreatePrivateLocationWithContext := fun _ _ _ _ => (None, None);
       GetEntity := fun _ => (None, None);
       SyntheticsUpdatePrivateLocation := fun _ _ _ => (None, None);
       SyntheticsDeletePrivateLocationWithContext :=
         fun _ => (Some (synthetics.mkDeleteResult errs), None) |} in
  resourceNewRelicSyntheticsPrivateLocationDelete sampleData
    (mkProviderConfig (client []) 1)
  = (schema.mkResourceData "" (schema.attrs sampleData), Return [])
  /\ resourceNewRelicSyntheticsPrivateLocationDelete sampleData
       (mkProviderConfig (client [busy]) 1)
     = (sampleData,
        Return [ diag.mkDiagnostic diag.Error_ "location has monitors" "" ]).
Proof.
  intros busy client. split.
  - exact (proj1 (X1_delete_clears_id_unless_response_errors sampleData
                    (mkProviderConfig (client []) 1) _ eq_refl) eq_refl).
  - apply (proj2 (X1_delete_clears_id_unless_response_errors sampleData
                    (mkProviderConfig (client [busy]) 1) _ eq_refl)).
    discriminate.
Defined.

(** X2: Delete never changes an attribute, and the resource ID it leaves is
    the old one or the empty one; what it returns depends on the state
    through the resource ID alone. *)
Theorem X2_delete_frame :
  forall (meta : ProviderConfig),
    (forall d,
        let d' := fst (resourceNewRelicSyntheticsPrivateLocationDelete d meta) in
        schema.attrs d' = schema.attrs d
        /\ (schema.Id d' = schema.Id d \/ schema.Id d' = ""))
    /\ (forall d1 d2,
        schema.Id d1 = schema.Id d2 ->
        snd (resourceNewRelicSyntheticsPrivateLocationDelete d1 meta)
        = snd (resourceNewRelicSyntheticsPrivateLocationDelete d2 meta)).
Proof.
  intros meta. split.
  - intros d. cbn zeta.
    unfold resourceNewRelicSyntheticsPrivateLocationDelete.
    destruct (SyntheticsDeletePrivateLocationWithContext _ _) as [res [err|]];
      [by auto|].
    case_match; cbn; auto.
  - intros d1 d2 Hid.
    unfold resourceNewRelicSyntheticsPrivateLocationDelete. rewrite Hid.
    destruct (SyntheticsDeletePrivateLocationWithContext _ _) as [res [err|]];
      [done|].
    by case_match.
Qed.

Lemma X2_witness :
  let other :=
    schema.mkResourceData "GUID-0" {[ "name" := schema.VString "another" ]} in
  schema.attrs (fst (resourceNewRelicSyntheticsPrivateLocationDelete
                       sampleData sampleMeta)) = schema.attrs sampleData
  /\ snd (resourceNewRelicSyntheticsPrivateLocationDelete sampleData sampleMeta)
     = snd (resourceNewRelicSyntheticsPrivateLocationDelete other sampleMeta).
Proof.
  intros other.
  destruct (X2_delete_frame sampleMeta) as [Hframe Hid].
  split; [exact (proj1 (Hframe sampleData))|].
  apply Hid. reflexivity.
Defined.

(** X3: Create, Update and Read end in a run-time panic exactly when the
    client call returns a nil result together with a nil error, the result
    being dereferenced unguarded; Delete guards the dereference and always
    returns diagnostics. *)
Theorem X3_panic_exactly_on_nil_result_and_nil_error :
  forall (selectAccountID : ProviderConfig -> schema.ResourceData -> Z)
         (d : schema.ResourceData) (meta : ProviderConfig),
    (snd (resourceNewRelicSyntheticsPrivateLocationCreate selectAccountID d meta)
     = Panic
     <-> SyntheticsCreatePrivateLocationWithContext (NewClient meta)
           (selectAccountID meta d) (stringAttr d "description")
           (stringAttr d "name") (boolAttr d "verified_script_execution")
         = (None, None))
    /\ (snd (resourceNewRelicSyntheticsPrivateLocationUpdate d meta) = Panic
        <-> SyntheticsUpdatePrivateLocation (NewClient meta)
              (stringAttr d "description") (schema.Id d)
              (boolAttr d "verified_script_execution")
            = (None, None))
    /\ (snd (resourceNewRelicSyntheticsPrivateLocationRead d meta) = Panic
        <-> GetEntity (NewClient meta) (schema.Id d) = (None, None))
    /\ (exists diags,
          snd (resourceNewRelicSyntheticsPrivateLocationDelete d meta)
          = Return diags).
Proof.
  intros sel d meta. split; [|split; [|split]].
  - unfold resourceNewRelicSyntheticsPrivateLocationCreate.
    rewrite asString_description, asString_name,
      asBool_verified_script_execution.
    destruct (SyntheticsCreatePrivateLocationWithContext _ _ _ _ _)
      as [[res|] [err|]]; cbn [snd]; try (split; [done|intros [=]]).
    + by case_match.
    + done.
  - unfold resourceNewRelicSyntheticsPrivateLocationUpdate.
    rewrite asString_description, asBool_verified_script_execution.
    destruct (SyntheticsUpdatePrivateLocation _ _ _ _)
      as [[res|] [err|]]; cbn [snd]; try (split; [done|intros [=]]).
    + by case_match.
    + done.
  - unfold resourceNewRelicSyntheticsPrivateLocationRead.
    destruct (GetEntity _ _) as [[res|] [err|]]; cbn [snd];
      try (split; [by try case_match|intros [=]]).
    done.
  - unfold resourceNewRelicSyntheticsPrivateLocationDelete.
    destruct (SyntheticsDeletePrivateLocationWithContext _ _) as [res [err|]];
      [by eexists|].
    case_match; by eexists.
Qed.

(** X4: when the update call answers with a result and no error, Update
    returns one Error diagnostic per error of the result, in order, with the
    error's description as summary; for a result without errors these are the
    nil diagnostics. *)
Theorem X4_update_returns_response_errors :
  forall (d : schema.ResourceData) (meta : ProviderConfig)
         (res : synthetics.SyntheticsPrivateLocationMutationResult),
    SyntheticsUpdatePrivateLocation (NewClient meta)
      (stringAttr d "description") (schema.Id d)
      (boolAttr d "verified_script_execution")
    = (Some res, None) ->
    resourceNewRelicSyntheticsPrivateLocationUpdate d meta
    = (d, Return (map errorDiagnostic (synthetics.Errors res))).
Proof.
  intros d meta res Hcall.
  unfold resourceNewRelicSyntheticsPrivateLocationUpdate.
  rewrite asString_description, asBool_verified_script_execution, Hcall.
  rewrite appendErrors_nil.
  by destruct (synthetics.Errors res).
Qed.

Lemma X4_witness :
  let stale := synthetics.mkMutationError "unknown location" "NOT_FOUND" in
  resourceNewRelicSyntheticsPrivateLocationUpdate sampleData
    (mkProviderConfig
       (answeringClient (sampleResult [stale]) entities.OtherEntity) 1)
  = (sampleData, Return [ diag.mkDiagnostic diag.Error_ "unknown location" "" ]).
Proof.
  intros stale.
  exact (X4_update_returns_response_errors sampleData
           (mkProviderConfig
              (answeringClient (sampleResult [stale]) entities.OtherEntity) 1)
           (sampleResult [stale]) eq_refl).
Defined.

(** X5: a handler that does not return nil diagnostics, because it returns
    diagnostics that are not empty or because it panics, returns the state
    exactly as it received it: Create, Read, Update and Delete write to the
    state only on the paths that end in [return nil]. *)
Theorem X5_state_is_written_only_on_success :
  forall (selectAccountID : ProviderConfig -> schema.ResourceData -> Z)
         (handler : HandlerFunc),
    handler ∈ [ resourceNewRelicSyntheticsPrivateLocationCreate selectAccountID;
                resourceNewRelicSyntheticsPrivateLocationRead;
                resourceNewRelicSyntheticsPrivateLocationUpdate;
                resourceNewRelicSyntheticsPrivateLocationDelete ] ->
    forall (d : schema.ResourceData) (meta : ProviderConfig),
      snd (handler d meta) ≠ Return [] -> fst (handler d meta) = d.
Proof.
  intros sel handler Hin d meta.
  rewrite !elem_of_cons, elem_of_nil in Hin.
  destruct Hin as [->|[->|[->|[->|[]]]]].
  - unfold resourceNewRelicSyntheticsPrivateLocationCreate.
    rewrite asString_description, asString_name,
      asBool_verified_script_execution.
    destruct (SyntheticsCreatePrivateLocationWithContext _ _ _ _ _)
      as [[res|] [err|]]; try done.
    by case_match.
  - unfold resourceNewRelicSyntheticsPrivateLocationRead.
    destruct (GetEntity _ _) as [[res|] [err|]]; try done;
      by case_match.
  - intros _. unfold resourceNewRelicSyntheticsPrivateLocationUpdate.
    rewrite asString_description, asBool_verified_script_execution.
    destruct (SyntheticsUpdatePrivateLocation _ _ _ _) as [[res|] [err|]];
      try done.
    by case_match.
  - unfold resourceNewRelicSyntheticsPrivateLocationDelete.
    destruct (SyntheticsDeletePrivateLocationWithContext _ _) as [res [err|]];
      [done|].
    by case_match.
Qed.

Lemma X5_witness :
  let taken := synthetics.mkMutationError "name already in use" "BAD_REQUEST" in
  let meta :=
    mkProviderConfig
      (answeringClient (sampleResult [taken]) entities.OtherEntity) 1 in
  fst (resourceNewRelicSyntheticsPrivateLocationCreate providerAccountID
         sampleData meta) = sampleData.
Proof.
  intros taken meta.
  apply (X5_state_is_written_only_on_success providerAccountID
           (resourceNewRelicSyntheticsPrivateLocationCreate providerAccountID)).
  - apply list_elem_of_here.
  - discriminate.
Defined.

(** X6: whatever the client answers, every diagnostic a handler returns has
    severity Error and an empty detail; no handler returns a warning. *)
Theorem X6_diagnostics_are_errors :
  forall (selectAccountID : ProviderConfig -> schema.ResourceData -> Z)
         (handler : HandlerFunc),
    handler ∈ [ resourceNewRelicSyntheticsPrivateLocationCreate selectAccountID;
                resourceNewRelicSyntheticsPrivateLocationRead;
                resourceNewRelicSyntheticsPrivateLocationUpdate;
                resourceNewRelicSyntheticsPrivateLocationDelete ] ->
    forall (d : schema.ResourceData) (meta : ProviderConfig)
           (diags : diag.Diagnostics),
      snd (handler d meta) = Return diags ->
      Forall (fun x => diag.Severity_ x = diag.Error_ /\ diag.Detail x = "") diags.
Proof.
  assert (Hmap : forall errs,
    Forall (fun x => diag.Severity_ x = diag.Error_ /\ diag.Detail x = "")
      (map errorDiagnostic errs)).
  { intros errs. apply Forall_forall. intros x Hx.
    apply list_elem_of_fmap in Hx as (e & -> & _). done. }
  intros sel handler Hin d meta diags.
  rewrite !elem_of_cons, elem_of_nil in Hin.
  destruct Hin as [->|[->|[->|[->|[]]]]].
  - unfold resourceNewRelicSyntheticsPrivateLocationCreate.
    rewrite asString_description, asString_name,
      asBool_verified_script_execution.
    destruct (SyntheticsCreatePrivateLocationWithContext _ _ _ _ _)
      as [[res|] [err|]]; cbn [snd]; try done.
    + intros [= <-]. repeat constructor.
    + rewrite appendErrors_nil.
      destruct (synthetics.Errors res) as [|e errs]; cbn [snd length Nat.ltb Nat.leb];
        intros [= <-]; [constructor | apply (Hmap (e :: errs))].
    + intros [= <-]. repeat constructor.
  - unfold resourceNewRelicSyntheticsPrivateLocationRead.
    destruct (GetEntity _ _) as [[res|] [err|]]; cbn [snd]; try done;
      try case_match; cbn [snd]; intros [= <-]; repeat constructor.
  - unfold resourceNewRelicSyntheticsPrivateLocationUpdate.
    rewrite asString_description, asBool_verified_script_execution.
    destruct (SyntheticsUpdatePrivateLocation _ _ _ _)
      as [[res|] [err|]]; cbn [snd]; try done.
    + intros [= <-]. repeat constructor.
    + rewrite appendErrors_nil.
      destruct (synthetics.Errors res) as [|e errs]; cbn [snd length Nat.ltb Nat.leb];
        intros [= <-]; [constructor | apply (Hmap (e :: errs))].
    + intros [= <-]. repeat constructor.
  - unfold resourceNewRelicSyntheticsPrivateLocationDelete.
    destruct (SyntheticsDeletePrivateLocationWithContext _ _)
      as [[res|] [err|]]; cbn [snd].
    + intros [= <-]. repeat constructor.
    + rewrite appendErrors_nil.
      destruct (synthetics.Errors_ res) as [|e errs]; cbn [snd length Nat.ltb Nat.leb];
        intros [= <-]; [constructor | apply (Hmap (e :: errs))].
    + intros [= <-]. repeat constructor.
    + intros [= <-]. constructor.
Qed.

Lemma X6_witness :
  Forall (fun x => diag.Severity_ x = diag.Error_ /\ diag.Detail x = "")
    [ diag.mkDiagnostic diag.Error_ "503 service unavailable" "" ].
Proof.
  exact (X6_diagnostics_are_errors providerAccountID
           resourceNewRelicSyntheticsPrivateLocationDelete
           ltac:(do 3 apply list_elem_of_further; apply list_elem_of_here)
           sampleData
           (mkProviderConfig
              (failingClient (errorString "503 service unavailable")) 1)
           _ eq_refl).
Defined.

(** X7: on every outcome Read leaves each attribute other than guid and name
    as it was, and the resource ID it leaves is the old one or the empty
    one; it differs from the old one only when the lookup failed with a
    NotFound error. *)
Theorem X7_read_frame :
  forall (d : schema.ResourceData) (meta : ProviderConfig),
    let d' := fst (resourceNewRelicSyntheticsPrivateLocationRead d meta) in
    (forall k, k ≠ "guid" -> k ≠ "name" ->
               schema.attrs d' !! k = schema.attrs d !! k)
    /\ (schema.Id d' = schema.Id d
        \/ schema.Id d' = ""
           /\ exists msg, snd (GetEntity (NewClient meta) (schema.Id d))
                          = Some (NotFound msg)).
Proof.
  intros d meta. cbn zeta.
  unfold resourceNewRelicSyntheticsPrivateLocationRead.
  destruct (GetEntity _ _) as [[resp|] [[msg|msg]|]]; cbn [fst snd isNotFound];
    try (split; [done | by eauto]).
  destruct resp as [e|]; cbn [setCommonSyntheticsPrivateLocationAttributes].
  - split; [|left; by rewrite !Set_Id].
    intros k H1 H2. by rewrite !Set_attrs_ne.
  - by split; [|left].
Qed.

Lemma Set_Set_same (sch : gmap string schema.Schema) d key v :
  fst (schema.Set_ sch (fst (schema.Set_ sch d key v)) key v)
  = fst (schema.Set_ sch d key v).
Proof.
  unfold schema.Set_. destruct (sch !! key) as [s|]; [|done].
  case_decide as Hty; cbn [fst schema.Id schema.attrs]; [|done].
  by rewrite insert_insert_eq.
Qed.

Lemma Set_Set_comm (sch : gmap string schema.Schema) d k1 v1 k2 v2 :
  k1 ≠ k2 ->
  fst (schema.Set_ sch (fst (schema.Set_ sch d k1 v1)) k2 v2)
  = fst (schema.Set_ sch (fst (schema.Set_ sch d k2 v2)) k1 v1).
Proof.
  intros Hne. unfold schema.Set_.
  destruct (sch !! k1) as [s1|], (sch !! k2) as [s2|];
    repeat (case_decide; cbn [fst schema.Id schema.attrs]); try done.
  f_equal. by apply insert_insert_ne.
Qed.

(** X8: refreshing twice is refreshing once: when the entity lookup for the
    resource ID answers with an entity, running Read on the state Read has
    produced gives that state again, with nil diagnostics. *)
Theorem X8_read_is_idempotent :
  forall (d : schema.ResourceData) (meta : ProviderConfig)
         (resp : entities.EntityInterface),
    GetEntity (NewClient meta) (schema.Id d) = (Some resp, None) ->
    resourceNewRelicSyntheticsPrivateLocationRead
      (fst (resourceNewRelicSyntheticsPrivateLocationRead d meta)) meta
    = resourceNewRelicSyntheticsPrivateLocationRead d meta.
Proof.
  intros d meta resp Hcall.
  unfold resourceNewRelicSyntheticsPrivateLocationRead at 2 3.
  rewrite Hcall. cbn [fst].
  unfold resourceNewRelicSyntheticsPrivateLocationRead.
  assert (Hid : schema.Id (setCommonSyntheticsPrivateLocationAttributes resp d)
                = schema.Id d).
  { destruct resp; cbn; [by rewrite !Set_Id | done]. }
  rewrite Hid, Hcall. f_equal.
  destruct resp as [e|]; cbn [setCommonSyntheticsPrivateLocationAttributes];
    [|done].
  rewrite (Set_Set_comm _ _ "name" _ "guid") by done.
  rewrite (Set_Set_same _ d "guid").
  by rewrite (Set_Set_same _ _ "name").
Qed.

Lemma X8_witness :
  let meta :=
    mkProviderConfig
      (answeringClient (sampleResult [])
         (entities.PtrGenericEntityOutline sampleEntity)) 1 in
  resourceNewRelicSyntheticsPrivateLocationRead
    (fst (resourceNewRelicSyntheticsPrivateLocationRead sampleData meta)) meta
  = resourceNewRelicSyntheticsPrivateLocationRead sampleData meta.
Proof.
  intros meta.
  exact (X8_read_is_idempotent sampleData meta
           (entities.PtrGenericEntityOutline sampleEntity) eq_refl).
Defined.

(** X9: importing a private location by ID and refreshing the imported data
    with Read, when the entity lookup answers a generic entity outline, gives
    a state with the given ID that holds guid and name from the answer and
    no other attribute: description and verified_script_execution, which the
    schema requires, read as the empty string and false whatever the
    location is remotely. *)
Theorem X9_import_then_read_recovers_guid_and_name :
  forall (selectAccountID : ProviderConfig -> schema.ResourceData -> Z)
         (id : string) (meta : ProviderConfig)
         (e : entities.GenericEntityOutline),
    GetEntity (NewClient meta) id
    = (Some (entities.PtrGenericEntityOutline e), None) ->
    exists d0,
      importState (resourceNewRelicSyntheticsPrivateLocation selectAccountID)
        (schema.mkResourceData "" ∅) id meta = Some ([d0], None)
      /\ resourceNewRelicSyntheticsPrivateLocationRead d0 meta
         = (schema.mkResourceData id
              (<["name" := schema.VString (entities.Name e)]>
                 {[ "guid" := schema.VString (entities.GUID e) ]}),
            Return [])
      /\ dGet (fst (resourceNewRelicSyntheticsPrivateLocationRead d0 meta))
           "description" = Some (schema.VString "")
      /\ dGet (fst (resourceNewRelicSyntheticsPrivateLocationRead d0 meta))
           "verified_script_execution" = Some (schema.VBool false).
Proof.
  intros sel id meta e Hcall.
  exists (schema.mkResourceData id ∅).
  split; [reflexivity|].
  assert (Hread : resourceNewRelicSyntheticsPrivateLocationRead
                    (schema.mkResourceData id ∅) meta
                  = (schema.mkResourceData id
                       (<["name" := schema.VString (entities.Name e)]>
                          {[ "guid" := schema.VString (entities.GUID e) ]}),
                     Return [])).
  { unfold resourceNewRelicSyntheticsPrivateLocationRead.
    cbn [schema.Id]. rewrite Hcall. reflexivity. }
  split; [exact Hread|].
  rewrite Hread. cbn [fst]. unfold schema.Get. cbn [schema.attrs].
  rewrite !lookup_insert_ne, !lookup_singleton_ne by done.
  split; reflexivity.
Qed.

Lemma X9_witness :
  let meta :=
    mkProviderConfig
      (answeringClient (sampleResult [])
         (entities.PtrGenericEntityOutline sampleEntity)) 1 in
  exists d0,
    importState (resourceNewRelicSyntheticsPrivateLocation providerAccountID)
      (schema.mkResourceData "" ∅) "GUID-1" meta = Some ([d0], None)
    /\ resourceNewRelicSyntheticsPrivateLocationRead d0 meta
       = (schema.mkResourceData "GUID-1"
            (<["name" := schema.VString "lab-renamed"]>
               {[ "guid" := schema.VString "GUID-1" ]}),
          Return []).
Proof.
  intros meta.
  destruct (X9_import_then_read_recovers_guid_and_name providerAccountID
              "GUID-1" meta sampleEntity eq_refl) as (d0 & Himp & Hread & _).
  exists d0. split; [exact Himp | exact Hread].
Defined.

(** * Further properties of the request authorizers *)

Lemma SetHeader_SetHeader_same r key v1 v2 :
  http.SetHeader (http.SetHeader r key v1) key v2 = http.SetHeader r key v2.
Proof. unfold http.SetHeader. cbn. by rewrite insert_insert_eq. Qed.

Lemma SetHeader_SetHeader_comm r k1 v1 k2 v2 :
  k1 ≠ k2 ->
  http.SetHeader (http.SetHeader r k1 v1) k2 v2
  = http.SetHeader (http.SetHeader r k2 v2) k1 v1.
Proof.
  intros Hne. unfold http.SetHeader. cbn. f_equal. by apply insert_insert_ne.
Qed.

(** X10: authorizing a request again replaces the earlier authorization: for
    the NerdGraph, the classic V2 and the insert-key authorizer the request
    authorized under one config and then under another is the request
    authorized under the second alone, and so it is for the
    personal-key-capable authorizer when the two configs agree on whether a
    personal key is set.  With equal configs, authorizing twice is
    authorizing once. *)
Theorem X10_reauthorizing_replaces_the_credentials :
  forall (r : http.Request) (c1 c2 : http.Config),
    http.AuthorizeRequest http.mkNerdGraphAuthorizer
      (http.AuthorizeRequest http.mkNerdGraphAuthorizer r c1) c2
    = http.AuthorizeRequest http.mkNerdGraphAuthorizer r c2
    /\ http.AuthorizeRequest http.mkClassicV2Authorizer
         (http.AuthorizeRequest http.mkClassicV2Authorizer r c1) c2
       = http.AuthorizeRequest http.mkClassicV2Authorizer r c2
    /\ http.AuthorizeRequest http.mkInsightsInsertKeyAuthorizer
         (http.AuthorizeRequest http.mkInsightsInsertKeyAuthorizer r c1) c2
       = http.AuthorizeRequest http.mkInsightsInsertKeyAuthorizer r c2
    /\ ((http.PersonalAPIKey c1 = "" <-> http.PersonalAPIKey c2 = "") ->
        http.AuthorizeRequest http.mkPersonalAPIKeyCapableV2Authorizer
          (http.AuthorizeRequest http.mkPersonalAPIKeyCapableV2Authorizer r c1) c2
        = http.AuthorizeRequest http.mkPersonalAPIKeyCapableV2Authorizer r c2).
Proof.
  intros r c1 c2.
  unfold http.AuthorizeRequest, http.NerdGraphAuthorizer_AuthorizeRequest,
    http.ClassicV2Authorizer_AuthorizeRequest,
    http.InsightsInsertKeyAuthorizer_AuthorizeRequest,
    http.PersonalAPIKeyCapableV2Authorizer_AuthorizeRequest.
  do 3 (split; [apply SetHeader_SetHeader_same|]).
  intros Hsame.
  destruct (String.eqb_spec (http.PersonalAPIKey c1) "") as [H1|H1],
           (String.eqb_spec (http.PersonalAPIKey c2) "") as [H2|H2];
    cbn [negb]; try tauto.
  - apply SetHeader_SetHeader_same.
  - rewrite (SetHeader_SetHeader_comm _ "Auth-Type" _ "Api-Key") by done.
    by rewrite !SetHeader_SetHeader_same.
Qed.

Lemma X10_witness :
  let r := http.mkRequest "GET" "https://api.newrelic.com/v2/applications.json"
             {[ "Accept" := ["application/json"] ]} in
  let old := http.mkConfig "NRAK-1" "admin-1" "insert-1" in
  let new := http.mkConfig "NRAK-2" "admin-2" "insert-2" in
  http.AuthorizeRequest http.mkPersonalAPIKeyCapableV2Authorizer
    (http.AuthorizeRequest http.mkPersonalAPIKeyCapableV2Authorizer r old) new
  = http.AuthorizeRequest http.mkPersonalAPIKeyCapableV2Authorizer r new.
Proof.
  intros r old new.
  apply (X10_reauthorizing_replaces_the_credentials r old new).
  split; discriminate.
Defined.

(** X11: the personal-key-capable authorizer removes no header.  A request
    authorized with a personal key and then, the personal key being empty,
    with the admin key carries both credentials: Api-Key and Auth-Type of the
    first authorization next to X-Api-Key of the second; the other way
    round, X-Api-Key of the first stays next to Api-Key and Auth-Type of the
    second. *)
Theorem X11_switching_key_kind_keeps_the_stale_headers :
  forall (r : http.Request) (c1 c2 : http.Config),
    let r' :=
      http.AuthorizeRequest http.mkPersonalAPIKeyCapableV2Authorizer
        (http.AuthorizeRequest http.mkPersonalAPIKeyCapableV2Authorizer r c1)
        c2 in
    (http.PersonalAPIKey c1 ≠ "" -> http.PersonalAPIKey c2 = "" ->
       http.Header r' !! "Api-Key" = Some [http.PersonalAPIKey c1]
       /\ http.Header r' !! "Auth-Type" = Some ["User-Api-Key"]
       /\ http.Header r' !! "X-Api-Key" = Some [http.AdminAPIKey c2])
    /\ (http.PersonalAPIKey c1 = "" -> http.PersonalAPIKey c2 ≠ "" ->
       http.Header r' !! "X-Api-Key" = Some [http.AdminAPIKey c1]
       /\ http.Header r' !! "Api-Key" = Some [http.PersonalAPIKey c2]
       /\ http.Header r' !! "Auth-Type" = Some ["User-Api-Key"]).
Proof.
  intros r c1 c2. cbn zeta.
  unfold http.AuthorizeRequest,
    http.PersonalAPIKeyCapableV2Authorizer_AuthorizeRequest.
  destruct (String.eqb_spec (http.PersonalAPIKey c1) "") as [H1|H1],
           (String.eqb_spec (http.PersonalAPIKey c2) "") as [H2|H2];
    cbn [negb]; (split; [intros ? ?|intros ? ?]); try done.
  - rewrite !SetHeader_lookup_eq.
    rewrite (SetHeader_lookup_ne _ "Auth-Type" _ "X-Api-Key") by done.
    rewrite (SetHeader_lookup_ne _ "Api-Key" _ "X-Api-Key") by done.
    rewrite (SetHeader_lookup_ne _ "Auth-Type" _ "Api-Key") by done.
    by rewrite !SetHeader_lookup_eq.
  - rewrite (SetHeader_lookup_ne _ "X-Api-Key" _ "Api-Key") by done.
    rewrite (SetHeader_lookup_ne _ "X-Api-Key" _ "Auth-Type") by done.
    rewrite (SetHeader_lookup_ne _ "Auth-Type" _ "Api-Key") by done.
    by rewrite !SetHeader_lookup_eq.
Qed.

Lemma X11_witness :
  let r := http.mkRequest "GET" "https://api.newrelic.com/v2/applications.json" ∅ in
  let personal := http.mkConfig "NRAK-1" "admin-1" "insert-1" in
  let admin := http.mkConfig "" "admin-2" "insert-1" in
  let r' :=
    http.AuthorizeRequest http.mkPersonalAPIKeyCapableV2Authorizer
      (http.AuthorizeRequest http.mkPersonalAPIKeyCapableV2Authorizer r personal)
      admin in
  http.Header r' !! "Api-Key" = Some ["NRAK-1"]
  /\ http.Header r' !! "Auth-Type" = Some ["User-Api-Key"]
  /\ http.Header r' !! "X-Api-Key" = Some ["admin-2"].
Proof.
  intros r personal admin r'.
  apply (X11_switching_key_kind_keeps_the_stale_headers r personal admin);
    [discriminate | reflexivity].
Defined.

(** * Further properties of the data partition rule checks *)

Section Checks.

Variable testAccountID : Z.
Variable testAccProviderMeta : ProviderConfig.
Variable LogConfigurationsDataPartitionRule : Type.
Variable getDataPartitionByID :
  NewRelic -> Z -> string ->
  option LogConfigurationsDataPartitionRule * option error.

(** X12: the destroy check returns nil exactly when, for every resource of
    type newrelic_data_partition_rule the state records, the lookup of its ID
    returns a nil error; resources of other types play no part. *)
Theorem X12_destroy_check_nil_iff_every_lookup_succeeds :
  forall (s : terraform.State),
    testAccCheckNewRelicDataPartitionRuleDestroy testAccountID
      testAccProviderMeta LogConfigurationsDataPartitionRule
      getDataPartitionByID s = None
    <->
    forall name rs,
      (name, rs) ∈ s ->
      terraform.Type_ rs = "newrelic_data_partition_rule" ->
      snd (getDataPartitionByID (NewClient testAccProviderMeta) testAccountID
             (terraform.ID (terraform.Primary rs))) = None.
Proof. intros s. apply destroy_check_nil_iff. Qed.

(** X13: the order in which the range loop visits the resources of the
    state, which Go leaves open, does not change whether the destroy check
    passes. *)
Theorem X13_destroy_verdict_is_independent_of_iteration_order :
  forall (s s' : terraform.State),
    s ≡ₚ s' ->
    (testAccCheckNewRelicDataPartitionRuleDestroy testAccountID
       testAccProviderMeta LogConfigurationsDataPartitionRule
       getDataPartitionByID s = None
     <->
     testAccCheckNewRelicDataPartitionRuleDestroy testAccountID
       testAccProviderMeta LogConfigurationsDataPartitionRule
       getDataPartitionByID s' = None).
Proof.
  intros s s' Hperm. rewrite !destroy_check_nil_iff.
  split; intros Hall name rs Hin Hty; apply (Hall name rs); [|done| |done].
  - by rewrite Hperm.
  - by rewrite <- Hperm.
Qed.

(** X14: when the destroy check fails, its error is the text
    [data partition rule still exists: ] followed by the error text of the
    lookup of a data partition rule of the state, and that lookup has
    failed. *)
Theorem X14_destroy_error_reports_a_failed_lookup :
  forall (s : terraform.State) (err : error),
    testAccCheckNewRelicDataPartitionRuleDestroy testAccountID
      testAccProviderMeta LogConfigurationsDataPartitionRule
      getDataPartitionByID s = Some err ->
    exists name rs e,
      (name, rs) ∈ s
      /\ terraform.Type_ rs = "newrelic_data_partition_rule"
      /\ snd (getDataPartitionByID (NewClient testAccProviderMeta)
                testAccountID (terraform.ID (terraform.Primary rs))) = Some e
      /\ err = errorString ("data partition rule still exists: " ++ Error e).
Proof.
  intros s err. induction s as [|[name0 rs0] rest IH]; cbn; [done|].
  destruct (String.eqb_spec (terraform.Type_ rs0)
              "newrelic_data_partition_rule") as [Hty|Hty]; cbn [negb].
  - destruct (snd (getDataPartitionByID _ _ _)) as [e|] eqn:Hlook.
    + intros [= <-]. exists name0, rs0, e.
      split; [apply list_elem_of_here|done].
    + intros Hrest. destruct (IH Hrest) as (name & rs & e & Hin & Hrs).
      exists name, rs, e. split; [by apply list_elem_of_further|done].
  - intros Hrest. destruct (IH Hrest) as (name & rs & e & Hin & Hrs).
    exists name, rs, e. split; [by apply list_elem_of_further|done].
Qed.

Lemma exists_check_nil_iff :
  forall (n : string) (s : terraform.State),
    testAccCheckNewRelicDataPartitionRuleExists testAccountID
      testAccProviderMeta LogConfigurationsDataPartitionRule
      getDataPartitionByID n s = None
    <->
    exists rs,
      (list_to_map s : gmap string terraform.ResourceState) !! n = Some rs
      /\ terraform.ID (terraform.Primary rs) ≠ ""
      /\ snd (getDataPartitionByID (NewClient testAccProviderMeta)
                testAccountID (terraform.ID (terraform.Primary rs))) = None.
Proof.
  intros n s. unfold testAccCheckNewRelicDataPartitionRuleExists.
  destruct (list_to_map s !! n) as [rs|]; [|split; [done|by intros (? & ? & _)]].
  destruct (String.eqb_spec (terraform.ID (terraform.Primary rs)) "") as [Hid|Hid].
  - split; [done|]. by intros (? & [= <-] & ? & _).
  - destruct (snd (getDataPartitionByID _ _ _)) as [e|] eqn:Hlook.
    + split; [done|]. intros (? & [= <-] & _ & ?). congruence.
    + split; [|done]. intros _. by exists rs.
Qed.


(** X16: on a state whose data partition rules all have an ID, the destroy
    check passes exactly when the existence check passes for every data
    partition rule of the state: after a destroy it accepts the states in
    which every rule is still found. *)
Theorem X16_destroy_check_passes_iff_every_rule_exists :
  forall (s : terraform.State),
    NoDup s.*1 ->
    (forall name rs,
        (name, rs) ∈ s ->
        terraform.Type_ rs = "newrelic_data_partition_rule" ->
        terraform.ID (terraform.Primary rs) ≠ "") ->
    (testAccCheckNewRelicDataPartitionRuleDestroy testAccountID
       testAccProviderMeta LogConfigurationsDataPartitionRule
       getDataPartitionByID s = None
     <->
     forall name rs,
       (name, rs) ∈ s ->
       terraform.Type_ rs = "newrelic_data_partition_rule" ->
       testAccCheckNewRelicDataPartitionRuleExists testAccountID
         testAccProviderMeta LogConfigurationsDataPartitionRule
         getDataPartitionByID name s = None).
Proof.
  intros s Hnodup Hids. rewrite destroy_check_nil_iff.
  split; intros Hall name rs Hin Hty.
  - apply exists_check_nil_iff. exists rs.
    split; [by apply elem_of_list_to_map|].
    split; [by eapply Hids|by eapply Hall].
  - destruct (proj1 (exists_check_nil_iff name s) (Hall name rs Hin Hty))
      as (rs' & Hlook & _ & Hfound).
    apply elem_of_list_to_map in Hin; [|done].
    congruence.
Qed.

End Checks.

Lemma X13_witness :
  testAccCheckNewRelicDataPartitionRuleDestroy 1 sampleMeta
    DataPartitionRuleConfig (lookupAmong ["rule-1"]) sampleState = None
  <->
  testAccCheckNewRelicDataPartitionRuleDestroy 1 sampleMeta
    DataPartitionRuleConfig (lookupAmong ["rule-1"]) (reverse sampleState) = None.
Proof.
  apply (X13_destroy_verdict_is_independent_of_iteration_order 1 sampleMeta
           DataPartitionRuleConfig (lookupAmong ["rule-1"])
           sampleState (reverse sampleState)).
  apply perm_swap.
Defined.

Lemma X14_witness :
  exists name rs e,
    (name, rs) ∈ sampleState
    /\ terraform.Type_ rs = "newrelic_data_partition_rule"
    /\ snd (lookupAmong [] (NewClient sampleMeta) 1
              (terraform.ID (terraform.Primary rs))) = Some e
    /\ errorString
         "data partition rule still exists: data partition rule not found"
       = errorString ("data partition rule still exists: " ++ Error e).
Proof.
  exact (X14_destroy_error_reports_a_failed_lookup 1 sampleMeta
           DataPartitionRuleConfig (lookupAmong []) sampleState
           (errorString
              "data partition rule still exists: data partition rule not found")
           eq_refl).
Defined.

Lemma X16_witness :
  testAccCheckNewRelicDataPartitionRuleDestroy 1 sampleMeta
    DataPartitionRuleConfig (lookupAmong ["rule-1"]) sampleState = None
  <->
  forall name rs,
    (name, rs) ∈ sampleState ->
    terraform.Type_ rs = "newrelic_data_partition_rule" ->
    testAccCheckNewRelicDataPartitionRuleExists 1 sampleMeta
      DataPartitionRuleConfig (lookupAmong ["rule-1"]) name sampleState = None.
Proof.
  apply (X16_destroy_check_passes_iff_every_rule_exists 1 sampleMeta
           DataPartitionRuleConfig (lookupAmong ["rule-1"]) sampleState).
  - apply NoDup_cons. split.
    + intros Hin. apply list_elem_of_singleton in Hin. discriminate Hin.
    + apply NoDup_singleton.
  - intros name rs Hin Hty.
    apply elem_of_cons in Hin as [[= -> ->]|Hin]; [discriminate|].
    apply list_elem_of_singleton in Hin as [= -> ->]. discriminate Hty.
Defined.

(** * What Create and Read read from the state *)

(** X17: what Create returns depends on the state only through the account
    ID selected for it and the attributes description, name and
    verified_script_execution, and what Read returns only through the
    resource ID: two states that agree on these get the same diagnostics. *)
Theorem X17_create_and_read_outcomes_depend_on_few_inputs :
  forall (selectAccountID : ProviderConfig -> schema.ResourceData -> Z)
         (meta : ProviderConfig) (d1 d2 : schema.ResourceData),
    (selectAccountID meta d1 = selectAccountID meta d2 ->
     dGet d1 "description" = dGet d2 "description" ->
     dGet d1 "name" = dGet d2 "name" ->
     dGet d1 "verified_script_execution" = dGet d2 "verified_script_execution" ->
     snd (resourceNewRelicSyntheticsPrivateLocationCreate selectAccountID d1 meta)
     = snd (resourceNewRelicSyntheticsPrivateLocationCreate selectAccountID d2 meta))
    /\ (schema.Id d1 = schema.Id d2 ->
        snd (resourceNewRelicSyntheticsPrivateLocationRead d1 meta)
        = snd (resourceNewRelicSyntheticsPrivateLocationRead d2 meta)).
Proof.
  intros sel meta d1 d2. split.
  - intros Hacc Hdesc Hname Hvse.
    unfold resourceNewRelicSyntheticsPrivateLocationCreate.
    rewrite Hacc, Hdesc, Hname, Hvse.
    rewrite asString_description, asString_name,
      asBool_verified_script_execution.
    destruct (SyntheticsCreatePrivateLocationWithContext _ _ _ _ _)
      as [[res|] [err|]]; try done.
    by case_match.
  - intros Hid. unfold resourceNewRelicSyntheticsPrivateLocationRead.
    rewrite Hid.
    destruct (GetEntity _ _) as [[resp|] [err|]]; try done; by case_match.
Qed.

Lemma X17_witness :
  let other :=
    schema.mkResourceData "GUID-9"
      (<["key" := schema.VString "stale"]> (schema.attrs sampleData)) in
  snd (resourceNewRelicSyntheticsPrivateLocationCreate providerAccountID
         sampleData sampleMeta)
  = snd (resourceNewRelicSyntheticsPrivateLocationCreate providerAccountID
           other sampleMeta).
Proof.
  intros other.
  apply (proj1 (X17_create_and_read_outcomes_depend_on_few_inputs
                  providerAccountID sampleMeta sampleData other));
    reflexivity.
Defined.
